(** * The bar-server wrapper: a shallow embedding and its contract

    Source files:
    - [docker/bar-server/health_endpoint.py]  ([add_health_endpoint], [health])
    - [docker/bar-server/bar_server_wrapper.py]  (the module body and its
      [__main__] entry point)

    The wrapper is a script: a sequence of module-level statements that call
    into collaborators (python-dotenv, logging, [BarQueryConstructor],
    [example_server], FastAPI's route decorator, [os.getenv], [int],
    [uvicorn.run]).  The embedding threads an explicit [world] (process
    environment, object heap, the two module namespaces, a log of the
    collaborator calls made so far) through a small state-and-exception
    monad, one definition per statement of the script. *)

From Stdlib Require Import ZArith Ascii String List Bool Lia Btauto.
From stdpp Require Import base option gmap strings list fin_maps.

Local Open Scope Z_scope.

(** ** Strings as Python sees them

    A Python [str] is a sequence of code points; a Rocq [string] is a sequence
    of 8-bit characters, read here as the code points U+0000..U+00FF. *)

Definition chars (s : string) : list ascii := list_ascii_of_string s.

Definition code (c : ascii) : nat := nat_of_ascii c.

(** ** The built-in [int] on a string (base 10)

    [int(s)] maps white space of the string to blanks, then skips leading
    blanks, reads an optional sign, refuses a leading underscore, scans digits
    separated by single underscores, refuses an empty digit sequence or one
    longer than the interpreter's conversion limit, skips trailing blanks and
    demands the end of the string.  Any refusal is a [ValueError]. *)

(** White space for [int]: the ASCII blanks, and the two Latin-1 spaces
    (U+0085, U+00A0) that the conversion maps to a blank first. *)
Definition is_space (c : ascii) : bool :=
  let n := code c in
  ((9 <=? n)%nat && (n <=? 13)%nat) || (n =? 32)%nat || (n =? 133)%nat || (n =? 160)%nat.

Definition is_digit (c : ascii) : bool :=
  let n := code c in (48 <=? n)%nat && (n <=? 57)%nat.

Definition digit_value (c : ascii) : Z := Z.of_nat (code c - 48).

Definition is_underscore (c : ascii) : bool := (code c =? 95)%nat.
Definition is_plus (c : ascii) : bool := (code c =? 43)%nat.
Definition is_minus (c : ascii) : bool := (code c =? 45)%nat.

Fixpoint lstrip (s : list ascii) : list ascii :=
  match s with
  | c :: r => if is_space c then lstrip r else s
  | [] => []
  end.

(** The digit scan: [prev_us] tells that the previous character was an
    underscore, [acc] is the value read so far, [digits] the number of digits
    read so far.  The scan stops at the first character that is neither a
    digit nor an underscore and returns the rest of the string. *)
Fixpoint scan_digits (s : list ascii) (prev_us : bool) (acc : Z) (digits : nat)
  : option (Z * nat * list ascii) :=
  match s with
  | c :: r =>
      if is_digit c then scan_digits r false (10 * acc + digit_value c) (S digits)
      else if is_underscore c then
        if prev_us then None else scan_digits r true acc digits
      else if prev_us then None else Some (acc, digits, s)
  | [] => if prev_us then None else Some (acc, digits, [])
  end.

(** The interpreter's limit on decimal conversions: it applies to more than
    640 digits, when the configured maximum is positive (0 disables it). *)
Definition exceeds_limit (max_str_digits digits : nat) : bool :=
  (640 <? digits)%nat && (0 <? max_str_digits)%nat && (max_str_digits <? digits)%nat.

Definition finish_int (max_str_digits : nat) (negative : bool)
    (r : option (Z * nat * list ascii)) : option Z :=
  match r with
  | Some (v, digits, rest) =>
      if (digits =? 0)%nat then None
      else if exceeds_limit max_str_digits digits then None
      else match lstrip rest with
           | [] => Some (if negative then - v else v)
           | _ :: _ => None
           end
  | None => None
  end.

Definition int_of_chars (max_str_digits : nat) (s : list ascii) : option Z :=
  let s1 := lstrip s in
  let '(negative, s2) :=
    match s1 with
    | c :: r => if is_plus c then (false, r)
                else if is_minus c then (true, r)
                else (false, s1)
    | [] => (false, s1)
    end in
  match s2 with
  | c :: _ => if is_underscore c then None
              else finish_int max_str_digits negative (scan_digits s2 false 0 0)
  | [] => finish_int max_str_digits negative (scan_digits s2 false 0 0)
  end.

Definition int_of_str (max_str_digits : nat) (s : string) : option Z :=
  int_of_chars max_str_digits (chars s).

(** ** Numeric strings, as the language reference describes them

    What [int] accepts is an integer literal in base 10: optionally
    surrounded by white space, optionally preceded by one sign, then decimal
    digits in which single underscores may separate digits; a literal of
    more digits than the interpreter converts is not accepted.  The
    definitions below say this on the string as a whole (strip, drop the sign,
    check the grouping, count the digits), without scanning. *)

Definition rstrip (s : list ascii) : list ascii := rev (lstrip (rev s)).
Definition strip (s : list ascii) : list ascii := rstrip (lstrip s).

Definition has_sign (s : list ascii) : bool :=
  match s with c :: _ => is_plus c || is_minus c | [] => false end.

Definition has_minus (s : list ascii) : bool :=
  match s with c :: _ => is_minus c | [] => false end.

Definition unsigned_part (s : list ascii) : list ascii :=
  if has_sign s then tail s else s.

Definition first_is_digit (s : list ascii) : bool :=
  match s with c :: _ => is_digit c | [] => false end.

Fixpoint last_is_digit (s : list ascii) : bool :=
  match s with
  | [] => false
  | [c] => is_digit c
  | _ :: r => last_is_digit r
  end.

Fixpoint no_double_underscore (s : list ascii) : bool :=
  match s with
  | a :: r =>
      match r with
      | b :: _ => negb (is_underscore a && is_underscore b) && no_double_underscore r
      | [] => true
      end
  | [] => true
  end.

Definition digit_or_underscore (c : ascii) : bool := is_digit c || is_underscore c.

Definition well_grouped (b : list ascii) : bool :=
  forallb digit_or_underscore b
  && first_is_digit b && last_is_digit b && no_double_underscore b.

Definition digits_of (b : list ascii) : list ascii := List.filter is_digit b.

Definition step_digit (acc : Z) (c : ascii) : Z := 10 * acc + digit_value c.

Definition decimal (ds : list ascii) : Z := fold_left step_digit ds 0.

Definition numeric_chars (max_str_digits : nat) (s : list ascii) : bool :=
  let b := unsigned_part (strip s) in
  well_grouped b && negb (exceeds_limit max_str_digits (length (digits_of b))).

Definition numeric_value_chars (s : list ascii) : Z :=
  let t := strip s in
  let v := decimal (digits_of (unsigned_part t)) in
  if has_minus t then - v else v.

Definition numeric_string (max_str_digits : nat) (s : string) : bool :=
  numeric_chars max_str_digits (chars s).

Definition numeric_value (s : string) : Z := numeric_value_chars (chars s).

(** A plain port number: a non-empty string of decimal digits. *)
Definition digit_string (s : string) : bool :=
  match chars s with [] => false | cs => forallb is_digit cs end.

(** The grouping rule as an automaton over the characters: [prev_us] is the
    state "the previous character was an underscore" (also the start state
    of [well_grouped]); used to relate the scan to the rule. *)
Fixpoint accepts (prev_us : bool) (b : list ascii) : bool :=
  match b with
  | [] => negb prev_us
  | c :: r =>
      if is_digit c then accepts false r
      else if is_underscore c then negb prev_us && accepts true r
      else false
  end.

(** What may follow a digit: a possibly empty continuation of the groups. *)
Definition continues (b : list ascii) : bool :=
  forallb digit_or_underscore b
  && match b with [] => true | _ => last_is_digit b end
  && no_double_underscore b.

Definition ends_nonspace (b : list ascii) : Prop :=
  b = [] \/ exists b' c, b = b' ++ [c] /\ is_space c = false.

Definition sgn (negative : bool) (v : Z) : Z := if negative then - v else v.

(** ** Values, objects and the world *)

Definition loc := positive.

#[warnings="-register-all"]
Inductive pyval :=
| VNone
| VInt (n : Z)
| VStr (s : string)
| VRef (l : loc)
| VDict (items : list (string * pyval)).

Inductive exn :=
| ValueError
| TypeError
| NameError (name : string)
| AttributeError (attr : string)
| NotFound
| CollaboratorError (code : N).

(** A route's endpoint is a callable: the closure [health] defined inside
    [add_health_endpoint], or one of the base application's own handlers. *)
Inductive endpoint :=
| health
| external (id : N).

Record route := Route {
  route_method : string;
  route_path : string;
  route_endpoint : endpoint }.

Record request := Request {
  req_method : string;
  req_path : string }.

Inductive object :=
| Application (routes : list route)
| Instance (class : string).

Inductive log_msg :=
| Initializing
| Replaced
| AddedHealth
| Starting (port : pyval).

(** One entry per call into a collaborator, in program order. *)
Inductive event :=
| LoadDotenv
| BasicConfig
| GetLogger (name : pyval)
| Log (m : log_msg)
| Construct (l : loc)
| SetQueryConstructor (v : pyval)
| AddRoute (a : loc) (r : route)
| Getenv (key : string)
| UvicornRun (app : pyval) (host : string) (port : pyval).

Record world := World {
  environ : gmap string string;          (* os.environ *)
  heap : gmap loc object;                (* objects, by identity *)
  example_server : gmap string pyval;    (* namespace of module example_server *)
  globals : gmap string pyval;           (* namespace of the wrapper module *)
  trace : list event }.

Definition set_environ (f : gmap string string -> gmap string string) (w : world) : world :=
  World (f (environ w)) (heap w) (example_server w) (globals w) (trace w).
Definition set_heap (f : gmap loc object -> gmap loc object) (w : world) : world :=
  World (environ w) (f (heap w)) (example_server w) (globals w) (trace w).
Definition set_example_server (f : gmap string pyval -> gmap string pyval) (w : world) : world :=
  World (environ w) (heap w) (f (example_server w)) (globals w) (trace w).
Definition set_globals (f : gmap string pyval -> gmap string pyval) (w : world) : world :=
  World (environ w) (heap w) (example_server w) (f (globals w)) (trace w).
Definition set_trace (f : list event -> list event) (w : world) : world :=
  World (environ w) (heap w) (example_server w) (globals w) (f (trace w)).

(** ** Statements: state and exceptions *)

Inductive outcome (A : Type) :=
| Ok (a : A)
| Raised (e : exn).
Arguments Ok {A} a.
Arguments Raised {A} e.

Definition M (A : Type) : Type := world -> outcome A * world.

Definition ret {A} (a : A) : M A := fun w => (Ok a, w).
Definition bind {A B} (m : M A) (k : A -> M B) : M B :=
  fun w => match m w with
           | (Ok a, w') => k a w'
           | (Raised e, w') => (Raised e, w')
           end.

Notation "x <- m ;; k" := (bind m (fun x => k))
  (at level 100, m at next level, right associativity).
Notation "m ;; k" := (bind m (fun _ => k))
  (at level 100, right associativity).

Definition lift {A} (o : outcome A) : M A := fun w => (o, w).

Definition emit (e : event) : M unit :=
  fun w => (Ok tt, set_trace (fun t => t ++ [e]) w).

Definition load_global (x : string) : M pyval :=
  fun w => match globals w !! x with
           | Some v => (Ok v, w)
           | None => (Raised (NameError x), w)
           end.

Definition store_global (x : string) (v : pyval) : M unit :=
  fun w => (Ok tt, set_globals (insert x v) w).

(** A new object gets an identity that no live object has. *)
Definition alloc (o : object) : M loc :=
  fun w => let l := fresh (dom (heap w)) in (Ok l, set_heap (insert l o) w).

(** Statements run in sequence; the first exception ends the run. *)
Fixpoint exec (ss : list (M unit)) : M unit :=
  match ss with
  | [] => ret tt
  | s :: rest => s ;; exec rest
  end.

(** [x == "literal"] *)
Definition eq_str (v : pyval) (s : string) : bool :=
  match v with VStr t => String.eqb t s | _ => false end.

(** The payload of the health route. *)
Definition health_status : pyval :=
  VDict [("status", VStr "healthy"); ("service", VStr "bar-server")]%string.

(** The first route whose method and path match serves the request. *)
Fixpoint dispatch (path_matches : string -> string -> bool)
    (routes : list route) (rq : request) : option route :=
  match routes with
  | r :: rest =>
      if String.eqb (route_method r) (req_method rq) && path_matches (route_path r) (req_path rq)
      then Some r else dispatch path_matches rest rq
  | [] => None
  end.

Section Wrapper.

(** ** Collaborators

    What the wrapper calls but does not define.  [max_str_digits] is the
    interpreter's limit for [int] on strings (0: no limit).  [load_dotenv]
    may add variables to the process environment.  [BarQueryConstructor_init]
    reads the environment and either completes ([None]) or raises.
    [path_matches] is the framework's matching of a route's path template
    against a request path, [external_handler] the behaviour of the base
    application's own endpoints. *)
Variable max_str_digits : nat.
Variable load_dotenv : gmap string string -> gmap string string.
Variable BarQueryConstructor_init : gmap string string -> option N.
Variable path_matches : string -> string -> bool.
Variable external_handler : N -> request -> M pyval.

(** ** health_endpoint.py *)

(** [async def health(): return {"status": "healthy", "service": "bar-server"}];
    the dictionary display is evaluated at each call. *)
Definition health_handler : M pyval :=
  ret (VDict [("status", VStr "healthy"); ("service", VStr "bar-server")]%string).

Definition call_endpoint (e : endpoint) (rq : request) : M pyval :=
  match e with
  | health => health_handler
  | external id => external_handler id rq
  end.

(** [app.get(path)(f)]: the framework appends a GET route for [f] to the
    application's route table; an object without route table has no [get]. *)
Definition app_get (app : pyval) (path : string) (f : endpoint) : M unit :=
  fun w =>
    match app with
    | VRef a =>
        match heap w !! a with
        | Some (Application routes) =>
            let r := Route "GET" path f in
            emit (AddRoute a r)
              (set_heap (insert a (Application (routes ++ [r]))) w)
        | _ => (Raised (AttributeError "get"), w)
        end
    | _ => (Raised (AttributeError "get"), w)
    end.

(** [def add_health_endpoint(app): @app.get("/health") async def health(): ...] *)
Definition add_health_endpoint (app : pyval) : M unit :=
  app_get app "/health" health.

(** Serving one request on application [a], and a history of requests; an
    exception of one request does not stop the server. *)
Definition serve (a : loc) (rq : request) : M pyval :=
  fun w =>
    match heap w !! a with
    | Some (Application routes) =>
        match dispatch path_matches routes rq with
        | Some r => call_endpoint (route_endpoint r) rq w
        | None => (Raised NotFound, w)
        end
    | _ => (Raised NotFound, w)
    end.

Fixpoint serve_all (a : loc) (history : list request) (w : world) : world :=
  match history with
  | [] => w
  | rq :: rest => serve_all a rest (snd (serve a rq w))
  end.

(** ** bar_server_wrapper.py, statement by statement *)

(** [from example_server import app as base_app] (the module itself is
    loaded already: its namespace is part of the world) *)
Definition stmt_import_base_app : M unit :=
  fun w =>
    match example_server w !! "app"%string with
    | Some v => store_global "base_app" v w
    | None => (Raised (AttributeError "app"), w)
    end.

(** [load_dotenv()] *)
Definition stmt_load_dotenv : M unit :=
  fun w => emit LoadDotenv (set_environ load_dotenv w).

(** [logging.basicConfig(level=logging.INFO)] *)
Definition stmt_basic_config : M unit := emit BasicConfig.

(** [logger = logging.getLogger(__name__)]: in a run of the body no logger
    of that name exists yet, and one is made. *)
Definition stmt_get_logger : M unit :=
  n <- load_global "__name__" ;;
  emit (GetLogger n) ;;
  l <- alloc (Instance "Logger") ;;
  store_global "logger" (VRef l).

(** [logger.info(...)] *)
Definition logger_info (m : log_msg) : M unit :=
  _ <- load_global "logger" ;; emit (Log m).

(** Modelled from the spec: class [BarQueryConstructor] of
    [query_constructor.py], which is not among the sources.  To the wrapper
    it is opaque: [BarQueryConstructor()] either raises (missing
    configuration) or returns a new object. *)
Definition BarQueryConstructor : M pyval :=
  fun w =>
    match BarQueryConstructor_init (environ w) with
    | Some code => (Raised (CollaboratorError code), w)
    | None => (l <- alloc (Instance "BarQueryConstructor") ;;
               emit (Construct l) ;;
               ret (VRef l)) w
    end.

(** [bar_constructor = BarQueryConstructor()] *)
Definition stmt_construct : M unit :=
  v <- BarQueryConstructor ;; store_global "bar_constructor" v.

(** [import example_server] binds a module that is loaded already (the
    binding of the name is left out: the module's namespace is a field of
    the world); [example_server.query_constructor = bar_constructor] *)
Definition stmt_replace : M unit :=
  v <- load_global "bar_constructor" ;;
  emit (SetQueryConstructor v) ;;
  (fun w => (Ok tt, set_example_server (insert "query_constructor"%string v) w)).

(** [add_health_endpoint(base_app)] *)
Definition stmt_add_health : M unit :=
  v <- load_global "base_app" ;; add_health_endpoint v.

(** [app = base_app] *)
Definition stmt_bind_app : M unit :=
  v <- load_global "base_app" ;; store_global "app" v.

(** [os.getenv(key, default)] *)
Definition os_getenv (key : string) (default : pyval) : M pyval :=
  fun w =>
    (Ok (match environ w !! key with Some s => VStr s | None => default end),
     set_trace (fun t => t ++ [Getenv key]) w).

(** [int(x)]: an integer is returned as it is, a string is parsed; the
    call has no effect on the world. *)
Definition builtin_int (x : pyval) : outcome pyval :=
  match x with
  | VInt n => Ok (VInt n)
  | VStr s =>
      match int_of_str max_str_digits s with
      | Some n => Ok (VInt n)
      | None => Raised ValueError
      end
  | _ => Raised TypeError
  end.

(** [port = int(os.getenv("PORT", 8001))] *)
Definition stmt_port : M unit :=
  v <- os_getenv "PORT" (VInt 8001) ;;
  p <- lift (builtin_int v) ;;
  store_global "port" p.

(** [logger.info(f"... starting on http://0.0.0.0:{port}")] *)
Definition stmt_log_starting : M unit :=
  p <- load_global "port" ;; logger_info (Starting p).

(** [uvicorn.run(app, host="0.0.0.0", port=port)]: the call is recorded
    with its arguments; it serves until the process ends, and what the
    server does with the socket is its own matter. *)
Definition stmt_uvicorn_run : M unit :=
  a <- load_global "app" ;;
  p <- load_global "port" ;;
  emit (UvicornRun a "0.0.0.0" p).

Definition main_block : list (M unit) :=
  [stmt_port; stmt_log_starting; stmt_uvicorn_run].

(** [if __name__ == "__main__": ...]; the [import uvicorn] that opens the
    block is left out, the call names the server directly. *)
Definition stmt_entry_point : M unit :=
  n <- load_global "__name__" ;;
  if eq_str n "__main__" then exec main_block else ret tt.

Definition module_body : list (M unit) :=
  [ stmt_import_base_app;
    stmt_load_dotenv;
    stmt_basic_config;
    stmt_get_logger;
    logger_info Initializing;
    stmt_construct;
    stmt_replace;
    logger_info Replaced;
    stmt_add_health;
    logger_info AddedHealth;
    stmt_bind_app;
    stmt_entry_point ].

Definition bar_server_wrapper : M unit := exec module_body.

(** The numbered steps of the start-up sequence. *)
Definition step_of (e : event) : option nat :=
  match e with
  | LoadDotenv => Some 1%nat
  | Construct _ => Some 2%nat
  | SetQueryConstructor _ => Some 3%nat
  | AddRoute _ _ => Some 4%nat
  | Getenv _ => Some 5%nat
  | UvicornRun _ _ _ => Some 6%nat
  | _ => None
  end.

Definition is_listen (e : event) : bool :=
  match e with UvicornRun _ _ _ => true | _ => false end.

Definition is_port_read (e : event) : bool :=
  match e with Getenv _ => true | _ => false end.

Definition health_route : route := Route "GET" "/health" health.

(** Modelled from the spec: what module [example_server] (not among the
    sources) provides when the wrapper imports it, a pre-built application
    object [a] under the name [app], with some route table [routes].  The
    wrapper's own namespace holds [__name__]. *)
Definition loaded (w : world) (a : loc) (routes : list route) (name : string) : Prop :=
  example_server w !! "app"%string = Some (VRef a)
  /\ heap w !! a = Some (Application routes)
  /\ globals w !! "__name__"%string = Some (VStr name).

(** The value that [os.getenv("PORT", 8001)] hands to [int]. *)
Definition port_setting (env : gmap string string) : pyval :=
  match env !! "PORT"%string with Some s => VStr s | None => VInt 8001 end.

(** Identities handed out by the two allocations of the module body. *)
Definition logger_loc (w : world) : loc := fresh (dom (heap w)).

Definition constructor_loc (w : world) : loc :=
  fresh (dom (<[logger_loc w := Instance "Logger"]> (heap w))).

(** What the module body has called when it reaches the entry point. *)
Definition configure_events (w : world) (a : loc) (name : string) : list event :=
  [ LoadDotenv; BasicConfig; GetLogger (VStr name); Log Initializing;
    Construct (constructor_loc w);
    SetQueryConstructor (VRef (constructor_loc w)); Log Replaced;
    AddRoute a health_route; Log AddedHealth ].

(** The world in which the module body reaches the entry point. *)
Definition configured (w : world) (a : loc) (routes : list route) (name : string) : world :=
  World (load_dotenv (environ w))
        (<[a := Application (routes ++ [health_route])]>
           (<[constructor_loc w := Instance "BarQueryConstructor"]>
              (<[logger_loc w := Instance "Logger"]> (heap w))))
        (<["query_constructor"%string := VRef (constructor_loc w)]> (example_server w))
        (<["app"%string := VRef a]>
           (<["bar_constructor"%string := VRef (constructor_loc w)]>
              (<["logger"%string := VRef (logger_loc w)]>
                 (<["base_app"%string := VRef a]> (globals w)))))
        (trace w ++ configure_events w a name).

(** The events of the entry point when the port resolves to [p]. *)
Definition main_events (a : loc) (p : pyval) : list event :=
  [ Getenv "PORT"; Log (Starting p); UvicornRun (VRef a) "0.0.0.0" p ].

(** The query-construction slot of the base application. *)
Definition query_slot (w : world) : option pyval :=
  example_server w !! "query_constructor"%string.

(** Following a reference to the object it names. *)
Definition deref (w : world) (v : pyval) : option object :=
  match v with VRef l => heap w !! l | _ => None end.

(** No call of [uvicorn.run], no call of [os.getenv], among some events. *)
Definition no_listener (evs : list event) : Prop :=
  forallb (fun e => negb (is_listen e)) evs = true.

Definition no_port_read (evs : list event) : Prop :=
  forallb (fun e => negb (is_port_read e)) evs = true.

(** ** A sample deployment, for running the definitions *)

Definition sample_routes : list route :=
  [ Route "GET" "/" (external 0); Route "POST" "/memory" (external 1) ].

Definition sample_world (env : gmap string string) (name : string) : world :=
  World env
        (<[1%positive := Application sample_routes]>
           {[2%positive := Instance "QueryConstructor"]})
        (<["app"%string := VRef 1%positive]>
           {["query_constructor"%string := VRef 2%positive]})
        {["__name__"%string := VStr name]}
        [].

(** A [.env] file with one key; variables of the process win. *)
Definition sample_dotenv (env : gmap string string) : gmap string string :=
  env ∪ {["API_KEY"%string := "k"%string]}.

Definition sample_init (env : gmap string string) : option N :=
  match env !! "API_KEY"%string with Some _ => None | None => Some 1%N end.

Definition sample_handler (id : N) (rq : request) : M pyval :=
  ret (VStr (req_path rq)).

(** ** The import path (bar_server_wrapper.py, line 13)

    [sys.path.append(os.path.dirname(os.path.dirname(os.path.abspath(__file__))))].
    Paths are sequences of characters; [os.path.dirname] is the POSIX one:
    cut after the last slash, then drop trailing slashes unless nothing but
    slashes is left. *)

Definition is_sep (c : ascii) : bool := (code c =? 47)%nat.

(** [p[:p.rfind("/") + 1]] *)
Fixpoint upto_last_sep (p : list ascii) : list ascii :=
  match p with
  | [] => []
  | c :: r =>
      match upto_last_sep r with
      | [] => if is_sep c then [c] else []
      | h :: t => c :: h :: t
      end
  end.

Fixpoint lstrip_sep (p : list ascii) : list ascii :=
  match p with
  | c :: r => if is_sep c then lstrip_sep r else p
  | [] => []
  end.

(** [head.rstrip("/")] *)
Definition rstrip_sep (p : list ascii) : list ascii := rev (lstrip_sep (rev p)).

Definition dirname (p : list ascii) : list ascii :=
  let head := upto_last_sep p in
  match head with
  | [] => head
  | _ :: _ => if forallb is_sep head then head else rstrip_sep head
  end.

(** The entry that line 13 computes from [os.path.abspath(__file__)], and
    the list after the append. *)
Definition sys_path_entry (abspath_file : list ascii) : list ascii :=
  dirname (dirname abspath_file).

Definition sys_path_append (sys_path : list (list ascii)) (abspath_file : list ascii)
  : list (list ascii) :=
  sys_path ++ [sys_path_entry abspath_file].

(** An absolute normalised path, as [abspath] returns it, from its
    components: the root for none, else each component behind a slash. *)
Definition is_component (c : list ascii) : bool :=
  match c with [] => false | _ :: _ => forallb (fun x => negb (is_sep x)) c end.

Definition slash : ascii := ascii_of_nat 47.

Definition abs_path (comps : list (list ascii)) : list ascii :=
  match comps with
  | [] => [slash]
  | _ :: _ => concat (map (cons slash) comps)
  end.

(** ** Characters of a port setting *)

(** The characters that can occur in a string that [int] accepts. *)
Definition literal_char (c : ascii) : bool :=
  is_digit c || is_underscore c || is_space c || is_plus c || is_minus c.

(** ** More of the sample deployment *)

(** No [.env] file: the environment stays as it is. *)
Definition no_dotenv (env : gmap string string) : gmap string string := env.

Definition sample_file : list (list ascii) :=
  [ chars "app"; chars "bar-server"; chars "bar_server_wrapper.py" ].

Definition sample_sys_path : list (list ascii) :=
  [ chars "/usr/local/lib/python3.11" ].

Definition newline : string := String (ascii_of_nat 10) EmptyString.

(** ** Handlers that do not look at the route table *)

(** Two worlds that differ at most in the object stored at [a] and in the
    record of the calls made. *)
Definition differ_at (a : loc) (w1 w2 : world) : Prop :=
  environ w1 = environ w2
  /\ example_server w1 = example_server w2
  /\ globals w1 = globals w2
  /\ forall b, b <> a -> heap w1 !! b = heap w2 !! b.

(** A handler whose response does not depend on the application object
    [a], its route table in particular. *)
Definition route_blind (a : loc) (h : M pyval) : Prop :=
  forall w1 w2, differ_at a w1 w2 -> fst (h w1) = fst (h w2).

(** An endpoint of a base application that reports on the application's
    routes (as the framework's own schema endpoint does): here, their
    number. *)
Definition route_count_handler (a : loc) (id : N) (rq : request) : M pyval :=
  fun w =>
    (Ok (match heap w !! a with
         | Some (Application routes) => VInt (Z.of_nat (length routes))
         | _ => VNone
         end), w).

(** ** What the server makes of the address it is called with

    [uvicorn.run] hands host and port to the socket layer: a port from 1 to
    65535 is bound as given, for port 0 the operating system picks the port
    ([os_port]), and any other integer makes the bind raise
    [OverflowError], so that nothing listens. *)
Inductive listener :=
| Listening (host : string) (port : Z)
| BindOverflowError.

Definition bind_listener (os_port : Z) (host : string) (port : Z) : listener :=
  if (port <? 0) || (65535 <? port) then BindOverflowError
  else if port =? 0 then Listening host os_port
  else Listening host port.

Definition uvicorn_listener (os_port : Z) (e : event) : option listener :=
  match e with
  | UvicornRun _ host (VInt p) => Some (bind_listener os_port host p)
  | _ => None
  end.

(** The listener that the last call of a run leads to, if that call is the
    server's. *)
Definition started_listener (os_port : Z) (w : world) : option listener :=
  match last (trace w) with
  | Some e => uvicorn_listener os_port e
  | None => None
  end.

(** ** The port a setting stands for

    The integer that the environment [env] determines: 8001 when [PORT] is
    absent, the number a numeric string denotes when it is set. *)
Definition port_resolves (max_str_digits : nat) (env : gmap string string) (z : Z) : Prop :=
  match env !! "PORT"%string with
  | None => z = 8001
  | Some s => numeric_string max_str_digits s = true /\ z = numeric_value s
  end.

Example int_of_str_9090 : int_of_str 4300 "9090" = Some 9090.
Proof. reflexivity. Qed.
Example int_of_str_pad : int_of_str 4300 "  -1_000 " = Some (-1000).
Proof. reflexivity. Qed.
Example int_of_str_bad : int_of_str 4300 "_1" = None /\ int_of_str 4300 "1__0" = None
  /\ int_of_str 4300 "1_" = None /\ int_of_str 4300 "abc" = None /\ int_of_str 4300 "" = None
  /\ int_of_str 4300 "+ 1" = None /\ int_of_str 4300 "1.5" = None.
Proof. repeat split; reflexivity. Qed.
Example numeric_ex : numeric_string 4300 " +8_080 " = true /\ numeric_value " -8_080 " = -8080
  /\ numeric_string 4300 "_1" = false /\ numeric_string 4300 "" = false.
Proof. repeat split; reflexivity. Qed.
Ltac by_char c := destruct c as [[] [] [] [] [] [] [] []]; vm_compute; congruence.

Lemma digit_not_underscore c : is_digit c = true -> is_underscore c = false.
Proof. by_char c. Qed.
Lemma digit_not_space c : is_digit c = true -> is_space c = false.
Proof. by_char c. Qed.
Lemma underscore_not_space c : is_underscore c = true -> is_space c = false.
Proof. by_char c. Qed.
Lemma plus_not_space c : is_plus c = true -> is_space c = false.
Proof. by_char c. Qed.
Lemma minus_not_space c : is_minus c = true -> is_space c = false.
Proof. by_char c. Qed.
Lemma plus_not_minus c : is_plus c = true -> is_minus c = false.
Proof. by_char c. Qed.
Lemma space_not_digit c : is_space c = true -> is_digit c = false.
Proof. by_char c. Qed.
Lemma space_not_underscore c : is_space c = true -> is_underscore c = false.
Proof. by_char c. Qed.

Lemma lstrip_spaces w : forallb is_space w = true -> lstrip w = [].
Proof.
  induction w as [|c w IH]; simpl; [reflexivity|].
  intros H. apply andb_true_iff in H as [Hc Hw]. rewrite Hc. auto.
Qed.

Lemma lstrip_split s :
  exists w, s = w ++ lstrip s /\ forallb is_space w = true.
Proof.
  induction s as [|c s [w [E Hw]]]; simpl.
  - exists []. split; reflexivity.
  - destruct (is_space c) eqn:Hc.
    + exists (c :: w). simpl. rewrite Hc, Hw. split; [congruence | reflexivity].
    + exists []. split; reflexivity.
Qed.

Lemma lstrip_head s c r : lstrip s = c :: r -> is_space c = false.
Proof.
  induction s as [|a s IH]; simpl; [discriminate|].
  destruct (is_space a) eqn:Ha; [exact IH|].
  intros E. injection E as -> _. exact Ha.
Qed.

Lemma lstrip_nonempty b c r :
  is_space c = false -> lstrip (b ++ c :: r) <> [].
Proof.
  intros Hc. induction b as [|a b IH]; simpl.
  - rewrite Hc. discriminate.
  - destruct (is_space a); [exact IH | discriminate].
Qed.

Lemma rstrip_split t :
  exists w, t = rstrip t ++ w /\ forallb is_space w = true /\ ends_nonspace (rstrip t).
Proof.
  unfold rstrip. destruct (lstrip_split (rev t)) as [w [E Hw]].
  exists (rev w). split; [|split].
  - rewrite <- rev_app_distr, <- E, rev_involutive. reflexivity.
  - rewrite forallb_forall in *. intros x Hx. apply Hw. now apply in_rev.
  - destruct (lstrip (rev t)) as [|c r] eqn:El; [left; reflexivity|].
    right. exists (rev r), c. split; [reflexivity|]. eapply lstrip_head; eassumption.
Qed.

Lemma ends_nonspace_tail c b : ends_nonspace (c :: b) -> ends_nonspace b.
Proof.
  intros [H|[b' [x [E Hx]]]]; [discriminate|].
  destruct b' as [|y b']; simpl in E; injection E as -> ->.
  - left; reflexivity.
  - right. exists b', x. split; [reflexivity | exact Hx].
Qed.

Lemma ends_nonspace_lstrip b w : b <> [] -> ends_nonspace b -> lstrip (b ++ w) <> [].
Proof.
  intros Hb [H|[b' [x [E Hx]]]]; [contradiction|].
  subst b. rewrite <- app_assoc. simpl. now apply lstrip_nonempty.
Qed.

Lemma scan_digits_spec max neg b : forall w prev acc d,
  forallb is_space w = true -> ends_nonspace b ->
  finish_int max neg (scan_digits (b ++ w) prev acc d) =
    if accepts prev b && negb (d + length (digits_of b) =? 0)%nat
       && negb (exceeds_limit max (d + length (digits_of b)))
    then Some (sgn neg (fold_left step_digit (digits_of b) acc))
    else None.
Proof.
  induction b as [|c b IH]; intros w prev acc d Hw Hb.
  - simpl. rewrite Nat.add_0_r.
    assert (E : scan_digits w prev acc d = if prev then None else Some (acc, d, w)).
    { destruct w as [|c w]; simpl; [reflexivity|].
      simpl in Hw. apply andb_true_iff in Hw as [Hc _].
      rewrite (space_not_digit _ Hc), (space_not_underscore _ Hc). reflexivity. }
    rewrite E. destruct prev; simpl; [reflexivity|].
    destruct (d =? 0)%nat; simpl; [reflexivity|].
    destruct (exceeds_limit max d); simpl; [reflexivity|].
    rewrite (lstrip_spaces _ Hw). reflexivity.
  - simpl app. simpl scan_digits. unfold digits_of. simpl accepts. simpl List.filter.
    fold (digits_of b).
    destruct (is_digit c) eqn:Hd.
    + rewrite (IH w false _ (S d) Hw (ends_nonspace_tail _ _ Hb)).
      simpl length. rewrite Nat.add_succ_r. reflexivity.
    + destruct (is_underscore c) eqn:Hu.
      * destruct prev; simpl; [reflexivity|].
        apply (IH w true acc d Hw (ends_nonspace_tail _ _ Hb)).
      * assert (Hne : lstrip (c :: b ++ w) <> []).
        { apply (ends_nonspace_lstrip (c :: b) w); [discriminate | exact Hb]. }
        destruct prev; simpl; [reflexivity|].
        destruct (d =? 0)%nat; [reflexivity|].
        destruct (exceeds_limit max d); [reflexivity|].
        change (match lstrip (c :: b ++ w) with [] => Some (if neg then - acc else acc) | _ :: _ => None end = None).
        destruct (lstrip (c :: b ++ w)); [contradiction | reflexivity].
Qed.

Lemma accepts_grouped b :
  accepts true b = well_grouped b /\ accepts false b = continues b.
Proof.
  unfold well_grouped, continues.
  induction b as [|c b [IHt IHf]]; [split; reflexivity|].
  assert (Hl : last_is_digit (c :: b) = match b with [] => is_digit c | _ => last_is_digit b end).
  { destruct b; reflexivity. }
  assert (Hn : no_double_underscore (c :: b) =
               match b with
               | [] => true
               | x :: _ => negb (is_underscore c && is_underscore x) && no_double_underscore b
               end).
  { destruct b; reflexivity. }
  rewrite Hl, Hn. simpl accepts. simpl forallb. simpl first_is_digit.
  replace (digit_or_underscore c) with (is_digit c || is_underscore c) by reflexivity.
  destruct (is_digit c) eqn:Hd.
  - rewrite (digit_not_underscore _ Hd). simpl. rewrite IHf.
    destruct b; split; simpl; btauto.
  - destruct (is_underscore c) eqn:Hu; simpl.
    + split; [btauto|].
      rewrite IHt. destruct b as [|x b]; [reflexivity|].
      simpl.
      replace (digit_or_underscore x) with (is_digit x || is_underscore x) by reflexivity.
      destruct (is_digit x) eqn:Hdx.
      * rewrite (digit_not_underscore _ Hdx). simpl. btauto.
      * destruct (is_underscore x); simpl; btauto.
    + split; reflexivity.
Qed.

Lemma accepts_true_digits b : accepts true b = true -> (length (digits_of b) =? 0)%nat = false.
Proof.
  destruct b as [|c b]; simpl; [discriminate|].
  unfold digits_of; simpl. destruct (is_digit c); [reflexivity|].
  destruct (is_underscore c); discriminate.
Qed.

(* the body of a literal, once the sign is gone *)
Lemma body_spec max neg b w :
  forallb is_space w = true -> ends_nonspace b ->
  match b ++ w with
  | c :: _ => if is_underscore c then None
              else finish_int max neg (scan_digits (b ++ w) false 0 0)
  | [] => finish_int max neg (scan_digits (b ++ w) false 0 0)
  end =
  if well_grouped b && negb (exceeds_limit max (length (digits_of b)))
  then Some (sgn neg (decimal (digits_of b))) else None.
Proof.
  intros Hw Hb.
  pose proof (scan_digits_spec max neg b w false 0 0%nat Hw Hb) as S0.
  simpl in S0. fold (decimal (digits_of b)) in S0.
  destruct (accepts_grouped b) as [At _].
  destruct b as [|c b].
  - simpl app. simpl in S0.
    destruct w as [|x w]; [exact S0|].
    simpl in Hw. apply andb_true_iff in Hw as [Hx _].
    rewrite (space_not_underscore _ Hx). exact S0.
  - simpl app. cbv match beta iota.
    rewrite <- At.
    destruct (is_underscore c) eqn:Hu.
    + assert (A : accepts true (c :: b) = false).
      { simpl. destruct (is_digit c) eqn:Hd.
        - rewrite (digit_not_underscore _ Hd) in Hu. discriminate.
        - rewrite Hu. reflexivity. }
      rewrite A. reflexivity.
    + change (c :: b ++ w) with ((c :: b) ++ w). rewrite S0.
      assert (E : accepts false (c :: b) = accepts true (c :: b)).
      { simpl. rewrite Hu. reflexivity. }
      rewrite E.
      destruct (accepts true (c :: b)) eqn:A; [|reflexivity].
      rewrite (accepts_true_digits _ A). reflexivity.
Qed.

Theorem int_of_chars_spec max s :
  int_of_chars max s =
  if numeric_chars max s then Some (numeric_value_chars s) else None.
Proof.
  unfold int_of_chars, numeric_chars, numeric_value_chars, strip.
  destruct (rstrip_split (lstrip s)) as [w [E [Hw Hu]]].
  set (t := lstrip s) in *. set (u := rstrip t) in *.
  destruct u as [|c u'] eqn:Eu.
  - (* nothing but white space *)
    simpl in E. assert (Et : t = []).
    { destruct t as [|x t'] eqn:Ht; [reflexivity|].
      pose proof (lstrip_head s x t' Ht) as Hx. subst w.
      simpl in Hw. rewrite Hx in Hw. discriminate. }
    rewrite Et. reflexivity.
  - rewrite E. simpl app. unfold unsigned_part, has_sign, has_minus. simpl tail.
    destruct (is_plus c) eqn:Hp; [|destruct (is_minus c) eqn:Hm].
    + rewrite (plus_not_minus _ Hp). simpl orb. cbv iota beta.
      apply (body_spec max false u' w Hw (ends_nonspace_tail _ _ Hu)).
    + simpl orb. cbv iota beta.
      apply (body_spec max true u' w Hw (ends_nonspace_tail _ _ Hu)).
    + simpl orb. cbv iota beta.
      apply (body_spec max false (c :: u') w Hw Hu).
Qed.

(** Plain digit strings are numeric and denote their decimal value. *)

Lemma digit_not_plus c : is_digit c = true -> is_plus c = false.
Proof. by_char c. Qed.
Lemma digit_not_minus c : is_digit c = true -> is_minus c = false.
Proof. by_char c. Qed.

Lemma lstrip_digits cs : forallb is_digit cs = true -> lstrip cs = cs.
Proof.
  destruct cs as [|c cs]; simpl; [reflexivity|].
  intros H. apply andb_true_iff in H as [Hc _].
  now rewrite (digit_not_space _ Hc).
Qed.

Lemma forallb_rev {A} (f : A -> bool) (l : list A) :
  forallb f (rev l) = forallb f l.
Proof.
  induction l as [|x l IH]; simpl; [reflexivity|].
  rewrite forallb_app, IH. simpl. btauto.
Qed.

Lemma strip_digits cs : forallb is_digit cs = true -> strip cs = cs.
Proof.
  intros H. unfold strip, rstrip. rewrite (lstrip_digits _ H).
  rewrite lstrip_digits by now rewrite forallb_rev.
  apply rev_involutive.
Qed.

Lemma digits_of_digits cs : forallb is_digit cs = true -> digits_of cs = cs.
Proof.
  unfold digits_of. induction cs as [|c cs IH]; simpl; [reflexivity|].
  intros H. apply andb_true_iff in H as [Hc Hcs]. now rewrite Hc, IH.
Qed.

Lemma accepts_digits cs : forallb is_digit cs = true -> accepts false cs = true.
Proof.
  induction cs as [|c cs IH]; simpl; [reflexivity|].
  intros H. apply andb_true_iff in H as [Hc Hcs]. rewrite Hc. auto.
Qed.

Lemma well_grouped_digits c cs :
  forallb is_digit (c :: cs) = true -> well_grouped (c :: cs) = true.
Proof.
  intros H. destruct (accepts_grouped (c :: cs)) as [<- _].
  simpl in *. apply andb_true_iff in H as [Hc Hcs].
  rewrite Hc. now apply accepts_digits.
Qed.

Lemma digit_string_numeric max s :
  digit_string s = true ->
  exceeds_limit max (length (chars s)) = false ->
  numeric_string max s = true /\ numeric_value s = decimal (chars s).
Proof.
  unfold digit_string, numeric_string, numeric_value, numeric_chars, numeric_value_chars.
  destruct (chars s) as [|c cs] eqn:E; [discriminate|].
  intros H Hlim. rewrite (strip_digits _ H).
  pose proof H as H'. simpl in H'. apply andb_true_iff in H' as [Hc _].
  unfold unsigned_part, has_sign, has_minus.
  rewrite (digit_not_plus _ Hc), (digit_not_minus _ Hc). simpl orb. cbv iota.
  rewrite (digits_of_digits _ H), (well_grouped_digits _ _ H), Hlim.
  split; reflexivity.
Qed.

(** ** Running statements *)

Lemma exec_cons (s : M unit) (ss : list (M unit)) (w : world) :
  exec (s :: ss) w =
  match s w with
  | (Ok _, w1) => exec ss w1
  | (Raised e, w1) => (Raised e, w1)
  end.
Proof. reflexivity. Qed.

Lemma exec_cons_ok (s : M unit) (ss : list (M unit)) (w w1 : world) :
  s w = (Ok tt, w1) -> exec (s :: ss) w = exec ss w1.
Proof. intros E. rewrite exec_cons, E. reflexivity. Qed.

Lemma exec_cons_raised (s : M unit) (ss : list (M unit)) (w w1 : world) e :
  s w = (Raised e, w1) -> exec (s :: ss) w = (Raised e, w1).
Proof. intros E. rewrite exec_cons, E. reflexivity. Qed.

Lemma bind_ok {A B} (m : M A) (k : A -> M B) w a w1 :
  m w = (Ok a, w1) -> bind m k w = k a w1.
Proof. unfold bind. intros ->. reflexivity. Qed.

Lemma load_global_ok x v w :
  globals w !! x = Some v -> load_global x w = (Ok v, w).
Proof. unfold load_global. intros ->. reflexivity. Qed.

Section Statements.
Variables (env : gmap string string) (h : gmap loc object)
          (es g : gmap string pyval) (t : list event).

Lemma load_global_run x v :
  g !! x = Some v ->
  load_global x (World env h es g t) = (Ok v, World env h es g t).
Proof. intros Hx. now apply load_global_ok. Qed.

Lemma import_base_app_run v :
  es !! "app"%string = Some v ->
  stmt_import_base_app (World env h es g t)
  = (Ok tt, World env h es (<["base_app"%string := v]> g) t).
Proof. unfold stmt_import_base_app. simpl. intros ->. reflexivity. Qed.

Lemma load_dotenv_run :
  stmt_load_dotenv (World env h es g t)
  = (Ok tt, World (load_dotenv env) h es g (t ++ [LoadDotenv])).
Proof. reflexivity. Qed.

Lemma basic_config_run :
  stmt_basic_config (World env h es g t)
  = (Ok tt, World env h es g (t ++ [BasicConfig])).
Proof. reflexivity. Qed.

Lemma get_logger_run n :
  g !! "__name__"%string = Some n ->
  stmt_get_logger (World env h es g t)
  = (Ok tt, World env (<[fresh (dom h) := Instance "Logger"]> h) es
                  (<["logger"%string := VRef (fresh (dom h))]> g)
                  (t ++ [GetLogger n])).
Proof.
  intros Hn. unfold stmt_get_logger.
  rewrite (bind_ok _ _ _ n _ (load_global_run _ _ Hn)). reflexivity.
Qed.

Lemma logger_info_run m v :
  g !! "logger"%string = Some v ->
  logger_info m (World env h es g t)
  = (Ok tt, World env h es g (t ++ [Log m])).
Proof.
  intros Hl. unfold logger_info.
  rewrite (bind_ok _ _ _ v _ (load_global_run _ _ Hl)). reflexivity.
Qed.

Lemma construct_run :
  BarQueryConstructor_init env = None ->
  stmt_construct (World env h es g t)
  = (Ok tt, World env (<[fresh (dom h) := Instance "BarQueryConstructor"]> h) es
                  (<["bar_constructor"%string := VRef (fresh (dom h))]> g)
                  (t ++ [Construct (fresh (dom h))])).
Proof.
  intros Hc. unfold stmt_construct, BarQueryConstructor, bind. simpl.
  rewrite Hc. reflexivity.
Qed.

Lemma construct_raised code :
  BarQueryConstructor_init env = Some code ->
  stmt_construct (World env h es g t)
  = (Raised (CollaboratorError code), World env h es g t).
Proof.
  intros Hc. unfold stmt_construct, BarQueryConstructor, bind. simpl.
  rewrite Hc. reflexivity.
Qed.

Lemma replace_run v :
  g !! "bar_constructor"%string = Some v ->
  stmt_replace (World env h es g t)
  = (Ok tt, World env h (<["query_constructor"%string := v]> es) g
                  (t ++ [SetQueryConstructor v])).
Proof.
  intros Hv. unfold stmt_replace.
  rewrite (bind_ok _ _ _ v _ (load_global_run _ _ Hv)). reflexivity.
Qed.

Lemma add_health_endpoint_run a routes :
  h !! a = Some (Application routes) ->
  add_health_endpoint (VRef a) (World env h es g t)
  = (Ok tt, World env (<[a := Application (routes ++ [health_route])]> h) es g
                  (t ++ [AddRoute a health_route])).
Proof.
  intros Ha. unfold add_health_endpoint, app_get. simpl. rewrite Ha. reflexivity.
Qed.

Lemma add_health_run a routes :
  g !! "base_app"%string = Some (VRef a) ->
  h !! a = Some (Application routes) ->
  stmt_add_health (World env h es g t)
  = (Ok tt, World env (<[a := Application (routes ++ [health_route])]> h) es g
                  (t ++ [AddRoute a health_route])).
Proof.
  intros Hb Ha. unfold stmt_add_health.
  rewrite (bind_ok _ _ _ _ _ (load_global_run _ _ Hb)).
  now apply add_health_endpoint_run.
Qed.

Lemma bind_app_run v :
  g !! "base_app"%string = Some v ->
  stmt_bind_app (World env h es g t)
  = (Ok tt, World env h es (<["app"%string := v]> g) t).
Proof.
  intros Hb. unfold stmt_bind_app.
  rewrite (bind_ok _ _ _ _ _ (load_global_run _ _ Hb)). reflexivity.
Qed.

Lemma port_run :
  stmt_port (World env h es g t)
  = match builtin_int (port_setting env) with
    | Ok p => (Ok tt, World env h es (<["port"%string := p]> g) (t ++ [Getenv "PORT"]))
    | Raised e => (Raised e, World env h es g (t ++ [Getenv "PORT"]))
    end.
Proof.
  change (stmt_port (World env h es g t))
    with (match builtin_int (port_setting env) with
          | Ok p => store_global "port" p (World env h es g (t ++ [Getenv "PORT"]))
          | Raised e => (Raised e, World env h es g (t ++ [Getenv "PORT"]))
          end).
  destruct (builtin_int (port_setting env)); reflexivity.
Qed.

Lemma log_starting_run p v :
  g !! "port"%string = Some p ->
  g !! "logger"%string = Some v ->
  stmt_log_starting (World env h es g t)
  = (Ok tt, World env h es g (t ++ [Log (Starting p)])).
Proof.
  intros Hp Hl. unfold stmt_log_starting.
  rewrite (bind_ok _ _ _ _ _ (load_global_run _ _ Hp)).
  now apply (logger_info_run _ v).
Qed.

Lemma uvicorn_run_run a p :
  g !! "app"%string = Some a ->
  g !! "port"%string = Some p ->
  stmt_uvicorn_run (World env h es g t)
  = (Ok tt, World env h es g (t ++ [UvicornRun a "0.0.0.0" p])).
Proof.
  intros Ha Hp. unfold stmt_uvicorn_run.
  rewrite (bind_ok _ _ _ _ _ (load_global_run _ _ Ha)).
  rewrite (bind_ok _ _ _ _ _ (load_global_run _ _ Hp)). reflexivity.
Qed.

End Statements.

(** ** Running the module body *)

Ltac lookup_tac :=
  cbn [globals heap environ example_server trace];
  repeat first [ rewrite lookup_insert_eq
               | rewrite lookup_insert_ne by (first [discriminate | congruence]) ];
  first [eassumption | reflexivity].

Ltac run_stmt :=
  first
    [ erewrite exec_cons_ok by (apply import_base_app_run; lookup_tac)
    | erewrite exec_cons_ok by (apply load_dotenv_run)
    | erewrite exec_cons_ok by (apply basic_config_run)
    | erewrite exec_cons_ok by (apply get_logger_run; lookup_tac)
    | erewrite exec_cons_ok by (eapply logger_info_run; lookup_tac)
    | erewrite exec_cons_ok by (apply construct_run; assumption)
    | erewrite exec_cons_ok by (apply replace_run; lookup_tac)
    | erewrite exec_cons_ok by (eapply add_health_run; [lookup_tac | lookup_tac])
    | erewrite exec_cons_ok by (apply bind_app_run; lookup_tac)
    | erewrite exec_cons_ok by (eapply log_starting_run; [lookup_tac | lookup_tac])
    | erewrite exec_cons_ok by (eapply uvicorn_run_run; [lookup_tac | lookup_tac]) ].

Lemma fresh_logger_loc w a o : heap w !! a = Some o -> a <> logger_loc w.
Proof.
  intros Ha ->. apply (is_fresh (dom (heap w))).
  apply elem_of_dom. eauto.
Qed.

Lemma fresh_constructor_loc w a o : heap w !! a = Some o -> a <> constructor_loc w.
Proof.
  intros Ha E. apply (is_fresh (dom (<[logger_loc w := Instance "Logger"]> (heap w)))).
  fold (constructor_loc w). rewrite <- E.
  apply elem_of_dom. rewrite lookup_insert_ne by (symmetry; eapply fresh_logger_loc; eauto).
  eauto.
Qed.

Lemma constructor_loc_not_logger w : constructor_loc w <> logger_loc w.
Proof.
  intros E. apply (is_fresh (dom (<[logger_loc w := Instance "Logger"]> (heap w)))).
  fold (constructor_loc w). rewrite E.
  apply elem_of_dom. rewrite lookup_insert_eq. eauto.
Qed.

Lemma module_body_run w a routes name rest :
  loaded w a routes name ->
  BarQueryConstructor_init (load_dotenv (environ w)) = None ->
  exec (firstn 11 module_body ++ rest) w = exec rest (configured w a routes name).
Proof.
  intros (Happ & Hheap & Hname) Hc.
  pose proof (fresh_logger_loc w a _ Hheap) as Hl0.
  pose proof (fresh_constructor_loc w a _ Hheap) as Hl.
  unfold configured, configure_events, constructor_loc, logger_loc in *.
  destruct w as [env h es g t]. cbn [globals heap environ example_server trace] in *.
  unfold module_body. cbn [firstn app].
  do 11 run_stmt.
  repeat rewrite <- app_assoc. reflexivity.
Qed.

Lemma module_body_split :
  module_body = firstn 11 module_body ++ [stmt_entry_point].
Proof. reflexivity. Qed.

Lemma configured_name w a routes name :
  globals w !! "__name__"%string = Some (VStr name) ->
  globals (configured w a routes name) !! "__name__"%string = Some (VStr name).
Proof. intros Hn. unfold configured. lookup_tac. Qed.

Lemma eqb_main name : name <> "__main__"%string -> String.eqb name "__main__" = false.
Proof. intros Hn. now apply String.eqb_neq. Qed.

(** Imported as a library: the module body ends after [app = base_app]. *)
Lemma wrapper_run_library w a routes name :
  loaded w a routes name ->
  BarQueryConstructor_init (load_dotenv (environ w)) = None ->
  name <> "__main__"%string ->
  bar_server_wrapper w = (Ok tt, configured w a routes name).
Proof.
  intros Hw Hc Hn. unfold bar_server_wrapper.
  rewrite module_body_split, (module_body_run w a routes name _ Hw Hc).
  rewrite exec_cons. unfold stmt_entry_point.
  destruct Hw as (_ & _ & Hname).
  rewrite (bind_ok _ _ _ _ _ (load_global_ok _ _ _ (configured_name w a routes name Hname))).
  cbn [eq_str]. rewrite (eqb_main _ Hn). reflexivity.
Qed.

(** Run directly: the entry point resolves the port and calls the server. *)
Lemma wrapper_run_main w a routes :
  loaded w a routes "__main__" ->
  BarQueryConstructor_init (load_dotenv (environ w)) = None ->
  bar_server_wrapper w =
  match builtin_int (port_setting (load_dotenv (environ w))) with
  | Ok p =>
      (Ok tt, set_trace (fun t => t ++ main_events a p)
                (set_globals (insert "port"%string p) (configured w a routes "__main__")))
  | Raised e =>
      (Raised e, set_trace (fun t => t ++ [Getenv "PORT"]) (configured w a routes "__main__"))
  end.
Proof.
  intros Hw Hc. unfold bar_server_wrapper.
  rewrite module_body_split, (module_body_run w a routes _ _ Hw Hc).
  rewrite exec_cons. unfold stmt_entry_point.
  destruct Hw as (_ & _ & Hname).
  rewrite (bind_ok _ _ _ _ _ (load_global_ok _ _ _ (configured_name w a routes _ Hname))).
  cbn [eq_str]. rewrite String.eqb_refl.
  unfold main_block, configured. rewrite exec_cons, port_run.
  destruct (builtin_int (port_setting (load_dotenv (environ w)))) as [p|e].
  - do 2 run_stmt. unfold main_events, set_trace, set_globals. cbn.
    repeat rewrite <- app_assoc. reflexivity.
  - reflexivity.
Qed.

(** The constructor raises: nothing after it runs. *)
Lemma wrapper_run_construct_raised w a routes name code :
  loaded w a routes name ->
  BarQueryConstructor_init (load_dotenv (environ w)) = Some code ->
  exists w',
    bar_server_wrapper w = (Raised (CollaboratorError code), w')
    /\ trace w' = trace w ++ [LoadDotenv; BasicConfig; GetLogger (VStr name); Log Initializing]
    /\ example_server w' = example_server w.
Proof.
  intros (Happ & Hheap & Hname) Hc.
  destruct w as [env h es g t]. cbn [globals heap environ example_server trace] in *.
  unfold bar_server_wrapper, module_body.
  do 5 run_stmt.
  erewrite exec_cons_raised by (apply construct_raised; eassumption).
  eexists. split; [reflexivity|]. cbn. repeat rewrite <- app_assoc. split; reflexivity.
Qed.

(** ** Where a run of the wrapper ends *)

Lemma wrapper_final w a routes name :
  loaded w a routes name ->
  BarQueryConstructor_init (load_dotenv (environ w)) = None ->
  let w' := snd (bar_server_wrapper w) in
  let c := configured w a routes name in
  heap w' = heap c
  /\ example_server w' = example_server c
  /\ (forall x, x <> "port"%string -> globals w' !! x = globals c !! x)
  /\ exists evs,
       trace w' = trace w ++ configure_events w a name ++ evs
       /\ (evs = [] \/ evs = [Getenv "PORT"] \/ exists p, evs = main_events a p).
Proof.
  intros Hw Hc. cbv zeta.
  destruct (String.eqb_spec name "__main__") as [->|Hn].
  - rewrite (wrapper_run_main w a routes Hw Hc).
    destruct (builtin_int (port_setting (load_dotenv (environ w)))) as [p|e]; cbn.
    + repeat split; [intros x Hx; now rewrite lookup_insert_ne by congruence|].
      exists (main_events a p). rewrite <- app_assoc. eauto.
    + repeat split. exists [Getenv "PORT"]. rewrite <- app_assoc. eauto.
  - rewrite (wrapper_run_library w a routes name Hw Hc Hn). cbn.
    repeat split. exists []. split; [reflexivity | eauto].
Qed.

Lemma configured_slot w a routes name :
  query_slot (configured w a routes name) = Some (VRef (constructor_loc w)).
Proof. unfold query_slot, configured. cbn. apply lookup_insert_eq. Qed.

Lemma configured_app w a routes name :
  heap (configured w a routes name) !! a = Some (Application (routes ++ [health_route])).
Proof. unfold configured. cbn. apply lookup_insert_eq. Qed.

Lemma configured_constructor w a routes name o :
  heap w !! a = Some o ->
  heap (configured w a routes name) !! constructor_loc w
  = Some (Instance "BarQueryConstructor").
Proof.
  intros Ha. unfold configured. cbn.
  rewrite lookup_insert_ne by (eapply fresh_constructor_loc; eauto).
  apply lookup_insert_eq.
Qed.

Lemma constructor_loc_fresh w : constructor_loc w ∉ dom (heap w).
Proof.
  intros Hin.
  apply (is_fresh (dom (<[logger_loc w := Instance "Logger"]> (heap w)))).
  fold (constructor_loc w). rewrite dom_insert_L. set_solver.
Qed.

(** The slot after any number of statements of the module body. *)
Lemma prefix_slot w a routes name k :
  loaded w a routes name ->
  BarQueryConstructor_init (load_dotenv (environ w)) = None ->
  let wk := snd (exec (firstn k module_body) w) in
  query_slot wk = query_slot w \/ query_slot wk = Some (VRef (constructor_loc w)).
Proof.
  intros Hw Hc.
  assert (Hfull : forall n, firstn (12 + n) module_body = module_body).
  { intros n. apply firstn_all2. cbn. lia. }
  do 12 (try destruct k as [|k]); [ .. | change (S (S (S (S (S (S (S (S (S (S (S (S k))))))))))))
                                         with (12 + k)%nat; rewrite Hfull ].
  13: { cbv zeta. destruct (wrapper_final w a routes name Hw Hc) as (_ & Hes & _).
        right. unfold query_slot. fold bar_server_wrapper. rewrite Hes.
        apply configured_slot. }
  all: destruct Hw as (Happ & Hheap & Hname);
       pose proof (fresh_logger_loc w a _ Hheap) as Hl0;
       pose proof (fresh_constructor_loc w a _ Hheap) as Hl;
       unfold constructor_loc, logger_loc in *;
       destruct w as [env h es g t];
       cbn [globals heap environ example_server trace] in *;
       unfold module_body; cbn [firstn]; repeat run_stmt;
       cbn; unfold query_slot; cbn;
       first [ left; reflexivity | right; apply lookup_insert_eq ].
Qed.

(** ** The health endpoint *)

Lemma dispatch_app routes extra rq r :
  dispatch path_matches routes rq = Some r ->
  dispatch path_matches (routes ++ extra) rq = Some r.
Proof.
  induction routes as [|x routes IH]; simpl; [discriminate|].
  destruct (String.eqb (route_method x) (req_method rq)
            && path_matches (route_path x) (req_path rq)); [trivial | exact IH].
Qed.

(** C1.  The handler registered at "/health" returns exactly
    [{"status": "healthy", "service": "bar-server"}] at every invocation: in
    whatever world it is called, after whatever history of requests, for
    whatever request; it does not raise and leaves the world as it found it.
    The value is built by the call from literals. *)
Theorem health_handler_constant (w : world) (a : loc) (routes : list route) :
  heap w !! a = Some (Application routes) ->
  exists w1 r,
    add_health_endpoint (VRef a) w = (Ok tt, w1)
    /\ heap w1 !! a = Some (Application (routes ++ [r]))
    /\ route_method r = "GET"%string /\ route_path r = "/health"%string
    /\ forall (history : list request) (rq : request) (w2 : world),
         let w3 := serve_all a history w2 in
         call_endpoint (route_endpoint r) rq w3 = (Ok health_status, w3).
Proof.
  intros Ha. destruct w as [env h es g t]. cbn in Ha.
  exists (World env (<[a := Application (routes ++ [health_route])]> h) es g
                (t ++ [AddRoute a health_route])), health_route.
  split; [now apply add_health_endpoint_run|].
  split; [cbn; apply lookup_insert_eq|].
  repeat split.
Qed.

Lemma differ_at_registration (env : gmap string string) (h : gmap loc object)
    (es g : gmap string pyval) (t t' : list event) (a : loc) (o : object) :
  differ_at a (World env (<[a := o]> h) es g t') (World env h es g t).
Proof.
  repeat split. intros b Hb. cbn. now rewrite lookup_insert_ne by congruence.
Qed.

(** C5 (amended).  Registering the health route keeps every route the
    application had: the old table is the new one without its last entry,
    each old route sits at its index with its method, path and endpoint, and
    every request that an old route served is served by that same route.
    Its response is the same as before whenever its handler does not depend
    on the application object (its route table).  The only change to the
    world is the one route appended to this application (and the record of
    the call). *)
Theorem add_health_endpoint_frame (w : world) (a : loc) (routes : list route) :
  heap w !! a = Some (Application routes) ->
  exists w1,
    add_health_endpoint (VRef a) w = (Ok tt, w1)
    /\ heap w1 !! a = Some (Application (routes ++ [health_route]))
    /\ (forall i r, routes !! i = Some r -> (routes ++ [health_route]) !! i = Some r)
    /\ (forall rq r, dispatch path_matches routes rq = Some r ->
          dispatch path_matches (routes ++ [health_route]) rq = Some r
          /\ serve a rq w = call_endpoint (route_endpoint r) rq w
          /\ serve a rq w1 = call_endpoint (route_endpoint r) rq w1
          /\ (route_blind a (call_endpoint (route_endpoint r) rq) ->
              fst (serve a rq w1) = fst (serve a rq w)))
    /\ (forall rq, route_blind a (call_endpoint health rq))
    /\ (forall b, b <> a -> heap w1 !! b = heap w !! b)
    /\ environ w1 = environ w
    /\ example_server w1 = example_server w
    /\ globals w1 = globals w
    /\ trace w1 = trace w ++ [AddRoute a health_route].
Proof.
  intros Ha. destruct w as [env h es g t]. cbn in Ha.
  exists (World env (<[a := Application (routes ++ [health_route])]> h) es g
                (t ++ [AddRoute a health_route])).
  split; [now apply add_health_endpoint_run|]. cbn.
  split; [apply lookup_insert_eq|].
  split; [intros i r Hi; now apply lookup_app_l_Some|].
  split.
  { intros rq r Hd. split; [now apply dispatch_app|].
    assert (E0 : serve a rq (World env h es g t)
                 = call_endpoint (route_endpoint r) rq (World env h es g t)).
    { unfold serve. cbn. now rewrite Ha, Hd. }
    assert (E1 : serve a rq (World env (<[a := Application (routes ++ [health_route])]> h)
                                   es g (t ++ [AddRoute a health_route]))
                 = call_endpoint (route_endpoint r) rq
                     (World env (<[a := Application (routes ++ [health_route])]> h)
                            es g (t ++ [AddRoute a health_route]))).
    { unfold serve. cbn. now rewrite lookup_insert_eq, (dispatch_app _ _ _ _ Hd). }
    split; [exact E0|]. split; [exact E1|].
    intros Hblind. rewrite E0, E1. apply Hblind, differ_at_registration. }
  split; [intros rq w1 w2 _; reflexivity|].
  split; [intros b Hb; now rewrite lookup_insert_ne by congruence|].
  repeat split.
Qed.

(** ** Resolving the port *)

Lemma int_of_str_spec max s :
  int_of_str max s = if numeric_string max s then Some (numeric_value s) else None.
Proof. apply int_of_chars_spec. Qed.

Lemma builtin_int_numeric s :
  numeric_string max_str_digits s = true ->
  builtin_int (VStr s) = Ok (VInt (numeric_value s)).
Proof. intros Hs. unfold builtin_int. rewrite int_of_str_spec, Hs. reflexivity. Qed.

Lemma builtin_int_not_numeric s :
  numeric_string max_str_digits s = false ->
  builtin_int (VStr s) = Raised ValueError.
Proof. intros Hs. unfold builtin_int. rewrite int_of_str_spec, Hs. reflexivity. Qed.

Lemma port_setting_set env s : env !! "PORT"%string = Some s -> port_setting env = VStr s.
Proof. unfold port_setting. intros ->. reflexivity. Qed.

Lemma port_setting_unset env : env !! "PORT"%string = None -> port_setting env = VInt 8001.
Proof. unfold port_setting. intros ->. reflexivity. Qed.

(** C3.  When the port variable is absent from the environment that the
    entry point reads (the process environment as [load_dotenv] left it), the
    port resolves to the integer 8001: it is bound to [port] and handed to
    the server. *)
Theorem port_default (w : world) (a : loc) (routes : list route) :
  loaded w a routes "__main__" ->
  BarQueryConstructor_init (load_dotenv (environ w)) = None ->
  load_dotenv (environ w) !! "PORT"%string = None ->
  exists w',
    bar_server_wrapper w = (Ok tt, w')
    /\ globals w' !! "port"%string = Some (VInt 8001)
    /\ last (trace w') = Some (UvicornRun (VRef a) "0.0.0.0" (VInt 8001)).
Proof.
  intros Hw Hc Hp.
  rewrite (wrapper_run_main w a routes Hw Hc), (port_setting_unset _ Hp).
  cbn [builtin_int]. eexists. split; [reflexivity|]. cbn.
  split; [apply lookup_insert_eq|].
  unfold main_events.
  change [Getenv "PORT"; Log (Starting (VInt 8001)); UvicornRun (VRef a) "0.0.0.0" (VInt 8001)]
    with ([Getenv "PORT"; Log (Starting (VInt 8001))] ++ [UvicornRun (VRef a) "0.0.0.0" (VInt 8001)]).
  rewrite !app_assoc. apply last_snoc.
Qed.

(** C2.  When the port variable is set to a string that is not numeric, a
    run of the module as [__main__] ends in an exception and no listener has
    been started: among the calls made there is no [uvicorn.run].  When the
    run gets as far as the port (the constructor did not raise), the
    exception is the [ValueError] of [int], raised right after the variable
    was read, and [port] is left as it was. *)
Theorem port_not_numeric (w : world) (a : loc) (routes : list route) (s : string) :
  loaded w a routes "__main__" ->
  load_dotenv (environ w) !! "PORT"%string = Some s ->
  numeric_string max_str_digits s = false ->
  exists e w' evs,
    bar_server_wrapper w = (Raised e, w')
    /\ trace w' = trace w ++ evs
    /\ no_listener evs
    /\ (BarQueryConstructor_init (load_dotenv (environ w)) = None ->
        e = ValueError /\ last evs = Some (Getenv "PORT")
        /\ globals w' !! "port"%string = globals w !! "port"%string).
Proof.
  intros Hw Hp Hs.
  destruct (BarQueryConstructor_init (load_dotenv (environ w))) as [code|] eqn:Hc.
  - destruct (wrapper_run_construct_raised w a routes _ code Hw Hc) as (w' & E & Ht & _).
    exists (CollaboratorError code), w'. eexists.
    split; [exact E|]. split; [exact Ht|]. split; [reflexivity | discriminate].
  - exists ValueError. eexists. exists (configure_events w a "__main__" ++ [Getenv "PORT"]).
    rewrite (wrapper_run_main w a routes Hw Hc), (port_setting_set _ _ Hp),
      (builtin_int_not_numeric _ Hs).
    split; [reflexivity|]. cbn.
    split; [now rewrite <- app_assoc|]. split; [reflexivity|].
    intros _. split; [reflexivity|]. split; [reflexivity|].
    now rewrite !lookup_insert_ne by discriminate.
Qed.

(** C9.  The empty string is not a default: with the port variable set to
    the empty string, [int] is called on that string and raises
    [ValueError], and no listener is started.  [os.getenv] hands the default
    8001 to [int] exactly when the variable is absent. *)
Theorem port_empty_string (w : world) (a : loc) (routes : list route) :
  loaded w a routes "__main__" ->
  BarQueryConstructor_init (load_dotenv (environ w)) = None ->
  load_dotenv (environ w) !! "PORT"%string = Some ""%string ->
  (exists w' evs,
     bar_server_wrapper w = (Raised ValueError, w')
     /\ trace w' = trace w ++ evs
     /\ last evs = Some (Getenv "PORT")
     /\ no_listener evs)
  /\ port_setting (load_dotenv (environ w)) = VStr ""
  /\ (forall env, port_setting env = VInt 8001 <-> env !! "PORT"%string = None).
Proof.
  intros Hw Hc Hp. split; [|split].
  - eexists. exists (configure_events w a "__main__" ++ [Getenv "PORT"]).
    rewrite (wrapper_run_main w a routes Hw Hc), (port_setting_set _ _ Hp).
    split; [reflexivity|]. cbn. split; [now rewrite <- app_assoc|].
    split; reflexivity.
  - now apply port_setting_set.
  - intros env. unfold port_setting. destruct (env !! "PORT"%string); split; congruence.
Qed.

Lemma main_events_last (t : list event) (a : loc) (p : pyval) :
  last (t ++ main_events a p) = Some (UvicornRun (VRef a) "0.0.0.0" p).
Proof.
  unfold main_events.
  change [Getenv "PORT"; Log (Starting p); UvicornRun (VRef a) "0.0.0.0" p]
    with ([Getenv "PORT"; Log (Starting p)] ++ [UvicornRun (VRef a) "0.0.0.0" p]).
  rewrite app_assoc. apply last_snoc.
Qed.

Lemma listen_host_configure w a name app host port :
  In (UvicornRun app host port) (configure_events w a name) -> host = "0.0.0.0"%string.
Proof. cbn. intros H. repeat (destruct H as [H|H]; [discriminate|]). contradiction. Qed.

Lemma bind_listener_cases (os_port : Z) (host : string) (v : Z) :
  (1 <= v <= 65535 -> bind_listener os_port host v = Listening host v)
  /\ (v = 0 -> bind_listener os_port host v = Listening host os_port)
  /\ (v < 0 \/ 65535 < v -> bind_listener os_port host v = BindOverflowError).
Proof.
  unfold bind_listener.
  destruct (Z.ltb_spec v 0), (Z.ltb_spec 65535 v), (Z.eqb_spec v 0); cbn;
    repeat split; intros; try reflexivity; lia.
Qed.

Lemma started_listener_main (os_port : Z) (t : list event) (a : loc) (v : Z) (w : world) :
  trace w = t ++ main_events a (VInt v) ->
  started_listener os_port w = Some (bind_listener os_port "0.0.0.0" v).
Proof.
  intros Ht. unfold started_listener. rewrite Ht, main_events_last. reflexivity.
Qed.


Lemma builtin_int_resolves (env : gmap string string) (z : Z) :
  port_resolves max_str_digits env z ->
  builtin_int (port_setting env) = Ok (VInt z).
Proof.
  unfold port_resolves, port_setting.
  destruct (env !! "PORT"%string) as [s|].
  - intros [Hs ->]. now apply builtin_int_numeric.
  - intros ->. reflexivity.
Qed.

(** The state after each stage of the module body. *)
Lemma module_body_stages w a routes name :
  loaded w a routes name ->
  BarQueryConstructor_init (load_dotenv (environ w)) = None ->
  let after := fun k => snd (exec (firstn k module_body) w) in
  (environ (after 1%nat) = environ w
   /\ environ (after 2%nat) = load_dotenv (environ w))
  /\ (heap (after 5%nat) !! constructor_loc w = None
      /\ heap (after 6%nat) !! constructor_loc w = Some (Instance "BarQueryConstructor")
      /\ globals (after 6%nat) !! "bar_constructor"%string = Some (VRef (constructor_loc w)))
  /\ (query_slot (after 6%nat) = query_slot w
      /\ query_slot (after 7%nat) = Some (VRef (constructor_loc w)))
  /\ (heap (after 8%nat) !! a = Some (Application routes)
      /\ heap (after 9%nat) !! a = Some (Application (routes ++ [health_route])))
  /\ (globals (after 11%nat) !! "port"%string = globals w !! "port"%string
      /\ trace (after 11%nat) = trace w ++ configure_events w a name).
Proof.
  intros (Happ & Hheap & Hname) Hc. cbv zeta beta.
  pose proof (fresh_logger_loc w a _ Hheap) as Hl0.
  pose proof (fresh_constructor_loc w a _ Hheap) as Hl.
  pose proof (is_fresh (dom (<[logger_loc w := Instance "Logger"]> (heap w)))) as Hfr.
  apply not_elem_of_dom in Hfr. fold (constructor_loc w) in Hfr.
  unfold configure_events, constructor_loc, logger_loc in *.
  destruct w as [env h es g t]. cbn [globals heap environ example_server trace] in *.
  unfold module_body. cbn [firstn].
  repeat split.
  all: repeat run_stmt; cbn [exec ret snd globals heap environ example_server trace];
       unfold query_slot; cbn [globals heap environ example_server trace].
  - reflexivity.
  - reflexivity.
  - exact Hfr.
  - apply lookup_insert_eq.
  - apply lookup_insert_eq.
  - reflexivity.
  - apply lookup_insert_eq.
  - now rewrite !lookup_insert_ne by congruence.
  - apply lookup_insert_eq.
  - now rewrite !lookup_insert_ne by discriminate.
  - now repeat rewrite <- app_assoc.
Qed.

(** C6.  Run as [__main__], the wrapper takes its steps in this order and no
    other: (1) load the environment file, (2) construct the query
    constructor, (3) assign it to the base application's slot, (4) register
    the health route, (5) read the port variable and convert it to an
    integer, (6) call the server.  With a constructor that completes and a
    port that resolves to the integer [z], the calls are made in that order,
    each once, the call of the server last and with that integer; and each
    step takes effect at its place: the environment is loaded by the second
    statement, the constructor exists from the sixth, the slot holds it from
    the seventh, the route is there from the ninth, and [port] is bound only
    in the entry point, to [z].  In every run the steps taken are an initial
    part of the sequence, complete when the run returns. *)
Theorem startup_order (w : world) (a : loc) (routes : list route) :
  loaded w a routes "__main__" ->
  (forall z,
     BarQueryConstructor_init (load_dotenv (environ w)) = None ->
     port_resolves max_str_digits (load_dotenv (environ w)) z ->
     let l := constructor_loc w in
     let after := fun k => snd (exec (firstn k module_body) w) in
     exists w' evs,
       bar_server_wrapper w = (Ok tt, w')
       /\ trace w' = trace w ++ evs
       /\ evs = [ LoadDotenv; BasicConfig; GetLogger (VStr "__main__"); Log Initializing;
                  Construct l; SetQueryConstructor (VRef l); Log Replaced;
                  AddRoute a health_route; Log AddedHealth;
                  Getenv "PORT"; Log (Starting (VInt z));
                  UvicornRun (VRef a) "0.0.0.0" (VInt z) ]
       /\ omap step_of evs = [1; 2; 3; 4; 5; 6]%nat
       /\ last evs = Some (UvicornRun (VRef a) "0.0.0.0" (VInt z))
       /\ (environ (after 1%nat) = environ w
           /\ environ (after 2%nat) = load_dotenv (environ w))
       /\ (heap (after 5%nat) !! l = None
           /\ heap (after 6%nat) !! l = Some (Instance "BarQueryConstructor")
           /\ globals (after 6%nat) !! "bar_constructor"%string = Some (VRef l))
       /\ (query_slot (after 6%nat) = query_slot w
           /\ query_slot (after 7%nat) = Some (VRef l))
       /\ (heap (after 8%nat) !! a = Some (Application routes)
           /\ heap (after 9%nat) !! a = Some (Application (routes ++ [health_route])))
       /\ (globals (after 11%nat) !! "port"%string = globals w !! "port"%string
           /\ trace (after 11%nat) = trace w ++ firstn 9 evs)
       /\ (globals w' !! "port"%string = Some (VInt z)
           /\ globals w' !! "app"%string = Some (VRef a)
           /\ heap w' !! a = Some (Application (routes ++ [health_route]))
           /\ query_slot w' = Some (VRef l)
           /\ environ w' = load_dotenv (environ w)))
  /\ (exists evs,
        trace (snd (bar_server_wrapper w)) = trace w ++ evs
        /\ omap step_of evs `prefix_of` [1; 2; 3; 4; 5; 6]%nat
        /\ (fst (bar_server_wrapper w) = Ok tt ->
            omap step_of evs = [1; 2; 3; 4; 5; 6]%nat)).
Proof.
  intros Hw. split.
  - intros z Hc Hz. cbv zeta.
    destruct (module_body_stages w a routes _ Hw Hc) as (S1 & S2 & S3 & S4 & S5 & S5').
    rewrite (wrapper_run_main w a routes Hw Hc), (builtin_int_resolves _ _ Hz).
    eexists. exists (configure_events w a "__main__" ++ main_events a (VInt z)).
    split; [reflexivity|].
    split; [cbn; now rewrite <- app_assoc|].
    split; [reflexivity|]. split; [reflexivity|]. split; [reflexivity|].
    split; [exact S1|]. split; [exact S2|]. split; [exact S3|]. split; [exact S4|].
    split; [split; [exact S5 | exact S5']|].
    cbn [set_trace set_globals globals heap example_server environ].
    split; [apply lookup_insert_eq|].
    split; [unfold configured; cbn; now rewrite lookup_insert_ne, lookup_insert_eq by discriminate|].
    split; [apply (configured_app w a routes)|].
    split; [apply (configured_slot w a routes) | reflexivity].
  - destruct (BarQueryConstructor_init (load_dotenv (environ w))) as [code|] eqn:Hc.
    + destruct (wrapper_run_construct_raised w a routes _ code Hw Hc) as (w' & E & Ht & _).
      rewrite E. eexists. split; [exact Ht|]. cbn.
      split; [now exists [2; 3; 4; 5; 6]%nat | discriminate].
    + rewrite (wrapper_run_main w a routes Hw Hc).
      destruct (builtin_int (port_setting (load_dotenv (environ w)))) as [p|e].
      * exists (configure_events w a "__main__" ++ main_events a p). cbn.
        split; [now rewrite <- app_assoc|]. split; [now exists [] | reflexivity].
      * exists (configure_events w a "__main__" ++ [Getenv "PORT"]). cbn.
        split; [now rewrite <- app_assoc|]. split; [now exists [6%nat] | discriminate].
Qed.

(** ** The configured application *)

(** C7.  Run as [__main__] (with a constructor that completes and a port
    that resolves to [p]), the last thing the module does is to call the
    server for the configured application on host 0.0.0.0 and port [p].
    Imported under any other name, the module body completes without
    reading the port variable and without calling the server, binds no
    [port], and its global [app] names the configured application: the base
    application with the health route appended, behind the replaced query
    constructor. *)
Theorem entry_point_guard (w : world) (a : loc) (routes : list route) (name : string) :
  loaded w a routes name ->
  BarQueryConstructor_init (load_dotenv (environ w)) = None ->
  (name = "__main__"%string ->
   forall p, builtin_int (port_setting (load_dotenv (environ w))) = Ok p ->
   exists w',
     bar_server_wrapper w = (Ok tt, w')
     /\ last (trace w') = Some (UvicornRun (VRef a) "0.0.0.0" p)
     /\ globals w' !! "app"%string = Some (VRef a)
     /\ globals w' !! "port"%string = Some p
     /\ heap w' !! a = Some (Application (routes ++ [health_route])))
  /\ (name <> "__main__"%string ->
      exists w' evs,
        bar_server_wrapper w = (Ok tt, w')
        /\ trace w' = trace w ++ evs
        /\ no_listener evs /\ no_port_read evs
        /\ globals w' !! "port"%string = globals w !! "port"%string
        /\ globals w' !! "app"%string = Some (VRef a)
        /\ heap w' !! a = Some (Application (routes ++ [health_route]))
        /\ query_slot w' = Some (VRef (constructor_loc w))).
Proof.
  intros Hw Hc. split.
  - intros -> p Hp.
    rewrite (wrapper_run_main w a routes Hw Hc), Hp.
    eexists. split; [reflexivity|]. cbn.
    split; [apply main_events_last|].
    split; [now rewrite lookup_insert_ne, lookup_insert_eq by discriminate|].
    split; apply lookup_insert_eq.
  - intros Hn. rewrite (wrapper_run_library w a routes name Hw Hc Hn).
    eexists. exists (configure_events w a name).
    split; [reflexivity|]. cbn.
    split; [reflexivity|]. split; [reflexivity|]. split; [reflexivity|].
    split; [now rewrite !lookup_insert_ne by discriminate|].
    split; [apply lookup_insert_eq|].
    split; [apply lookup_insert_eq|].
    apply (configured_slot w a routes name).
Qed.

(** C4.  When the module body has run (imported or as [__main__], whether
    or not the port resolves), the query-construction slot of the base
    application holds the very reference that [BarQueryConstructor()]
    returned and that the wrapper keeps in [bar_constructor]: an object
    created by this run.  The wrapper assigns the slot once, with that
    reference; and at every point of the module body the slot holds either
    what it held before or that reference. *)
Theorem query_constructor_installed (w : world) (a : loc) (routes : list route) (name : string) :
  loaded w a routes name ->
  BarQueryConstructor_init (load_dotenv (environ w)) = None ->
  let l := constructor_loc w in
  let w' := snd (bar_server_wrapper w) in
  (l ∉ dom (heap w))
  /\ heap w' !! l = Some (Instance "BarQueryConstructor")
  /\ globals w' !! "bar_constructor"%string = Some (VRef l)
  /\ query_slot w' = Some (VRef l)
  /\ (exists evs,
        trace w' = trace w ++ evs
        /\ In (Construct l) evs
        /\ List.filter (fun e => match e with SetQueryConstructor _ => true | _ => false end) evs
           = [SetQueryConstructor (VRef l)])
  /\ (forall k,
        let wk := snd (exec (firstn k module_body) w) in
        query_slot wk = query_slot w \/ query_slot wk = Some (VRef l)).
Proof.
  intros Hw Hc. cbv zeta.
  destruct (wrapper_final w a routes name Hw Hc) as (Hh & Hes & Hg & evs & Ht & Hev).
  split; [apply constructor_loc_fresh|].
  split. { rewrite Hh. destruct Hw as (_ & Ha & _). eapply configured_constructor; eauto. }
  split. { rewrite Hg by discriminate. unfold configured. cbn.
           now rewrite lookup_insert_ne, lookup_insert_eq by discriminate. }
  split. { unfold query_slot. rewrite Hes. apply (configured_slot w a routes name). }
  split.
  - exists (configure_events w a name ++ evs). split; [exact Ht|].
    split; [apply in_or_app; left; cbn; do 4 right; left; reflexivity|].
    rewrite List.filter_app.
    destruct Hev as [->|[->|[p ->]]]; reflexivity.
  - intros k. now apply (prefix_slot w a routes name k).
Qed.

(** C10.  The wrapper's global [app] and [example_server.app] hold one and
    the same reference (so does [base_app]): no copy is made.  Followed
    through either name, the object is the application with the health
    route appended, and the replaced query constructor sits in the module
    that both share. *)
Theorem app_is_base_app (w : world) (a : loc) (routes : list route) (name : string) :
  loaded w a routes name ->
  BarQueryConstructor_init (load_dotenv (environ w)) = None ->
  let w' := snd (bar_server_wrapper w) in
  globals w' !! "app"%string = Some (VRef a)
  /\ globals w' !! "base_app"%string = Some (VRef a)
  /\ example_server w' !! "app"%string = Some (VRef a)
  /\ (forall v u,
        globals w' !! "app"%string = Some v ->
        example_server w' !! "app"%string = Some u ->
        v = u
        /\ deref w' v = Some (Application (routes ++ [health_route]))
        /\ deref w' u = Some (Application (routes ++ [health_route])))
  /\ query_slot w' = Some (VRef (constructor_loc w)).
Proof.
  intros Hw Hc. cbv zeta.
  destruct (wrapper_final w a routes name Hw Hc) as (Hh & Hes & Hg & _).
  assert (Hga : globals (snd (bar_server_wrapper w)) !! "app"%string = Some (VRef a)).
  { rewrite Hg by discriminate. unfold configured. cbn. apply lookup_insert_eq. }
  assert (Hea : example_server (snd (bar_server_wrapper w)) !! "app"%string = Some (VRef a)).
  { rewrite Hes. unfold configured. cbn.
    rewrite lookup_insert_ne by discriminate. now destruct Hw. }
  split; [exact Hga|].
  split. { rewrite Hg by discriminate. unfold configured. cbn.
           now rewrite !lookup_insert_ne, lookup_insert_eq by discriminate. }
  split; [exact Hea|].
  split.
  - intros v u Hv Hu. rewrite Hga in Hv. rewrite Hea in Hu.
    injection Hv as <-. injection Hu as <-.
    split; [reflexivity|]. unfold deref. rewrite Hh.
    split; apply configured_app.
  - unfold query_slot. rewrite Hes. apply (configured_slot w a routes name).
Qed.

(** ** Beyond the claims: the import path *)

Lemma upto_last_sep_none (f : list ascii) :
  forallb (fun x => negb (is_sep x)) f = true -> upto_last_sep f = [].
Proof.
  induction f as [|c f IH]; simpl; [reflexivity|].
  intros H. apply andb_true_iff in H as [Hc Hf]. rewrite (IH Hf).
  apply negb_true_iff in Hc. now rewrite Hc.
Qed.

Lemma upto_last_sep_app (x f : list ascii) :
  forallb (fun c => negb (is_sep c)) f = true ->
  upto_last_sep (x ++ slash :: f) = x ++ [slash].
Proof.
  intros Hf. induction x as [|c x IH]; simpl.
  - now rewrite (upto_last_sep_none _ Hf).
  - rewrite IH. destruct x; reflexivity.
Qed.

Lemma rstrip_sep_snoc (x : list ascii) (c : ascii) :
  is_sep c = false -> rstrip_sep ((x ++ [c]) ++ [slash]) = x ++ [c].
Proof.
  intros Hc. unfold rstrip_sep. rewrite !rev_app_distr. simpl.
  rewrite Hc. simpl. now rewrite rev_involutive.
Qed.

Lemma forallb_sep_snoc (x : list ascii) (c : ascii) :
  is_sep c = false -> forallb is_sep ((x ++ [c]) ++ [slash]) = false.
Proof.
  intros Hc. rewrite !forallb_app. simpl. rewrite Hc. btauto.
Qed.

Lemma component_last (f : list ascii) :
  is_component f = true -> exists x c, f = x ++ [c] /\ is_sep c = false.
Proof.
  intros Hf. destruct f as [|a f]; [discriminate|].
  destruct (exists_last (l := a :: f)) as (x & c & E); [discriminate|].
  exists x, c. split; [exact E|].
  unfold is_component in Hf. rewrite E, forallb_app in Hf.
  apply andb_true_iff in Hf as [_ Hc]. simpl in Hc.
  rewrite andb_true_r in Hc. now apply negb_true_iff.
Qed.

Lemma component_no_sep (f : list ascii) :
  is_component f = true -> forallb (fun c => negb (is_sep c)) f = true.
Proof. destruct f; [discriminate | trivial]. Qed.

Lemma joined_last (comps : list (list ascii)) (f : list ascii) :
  is_component f = true ->
  exists x c, concat (map (cons slash) (comps ++ [f])) = x ++ [c] /\ is_sep c = false.
Proof.
  intros Hf. destruct (component_last f Hf) as (y & c & -> & Hc).
  exists (concat (map (cons slash) comps) ++ slash :: y), c.
  split; [|exact Hc].
  rewrite map_app, concat_app. simpl. rewrite app_nil_r, <- app_assoc. reflexivity.
Qed.

Lemma abs_path_snoc (init : list (list ascii)) (f : list ascii) :
  abs_path (init ++ [f]) = concat (map (cons slash) init) ++ slash :: f.
Proof.
  unfold abs_path. destruct (init ++ [f]) eqn:El; [now destruct init|].
  rewrite <- El, map_app, concat_app. simpl. now rewrite app_nil_r.
Qed.

Lemma abs_path_joined (init : list (list ascii)) (g : list ascii) :
  abs_path (init ++ [g]) = concat (map (cons slash) (init ++ [g])).
Proof. unfold abs_path. destruct (init ++ [g]) eqn:El; [now destruct init | reflexivity]. Qed.

Lemma dirname_abs_path (comps : list (list ascii)) :
  forallb is_component comps = true ->
  dirname (abs_path comps) = abs_path (removelast comps).
Proof.
  intros Hc. destruct comps as [|c0 comps0]; [reflexivity|].
  destruct (exists_last (l := c0 :: comps0)) as (init & f & E); [discriminate|].
  rewrite E in *. rewrite removelast_last.
  rewrite forallb_app in Hc. apply andb_true_iff in Hc as [Hinit Hf].
  simpl in Hf. rewrite andb_true_r in Hf.
  rewrite abs_path_snoc. unfold dirname.
  rewrite (upto_last_sep_app _ _ (component_no_sep _ Hf)).
  destruct init as [|i0 init0]; [reflexivity|].
  destruct (exists_last (l := i0 :: init0)) as (init' & g & E'); [discriminate|].
  rewrite E' in *.
  rewrite forallb_app in Hinit. apply andb_true_iff in Hinit as [_ Hg].
  simpl in Hg. rewrite andb_true_r in Hg.
  destruct (joined_last init' g Hg) as (x & c & Ej & Hsep).
  rewrite abs_path_joined, Ej.
  rewrite (forallb_sep_snoc _ _ Hsep), (rstrip_sep_snoc _ _ Hsep).
  destruct ((x ++ [c]) ++ [slash]) eqn:Ex; [|reflexivity].
  apply app_eq_nil in Ex as [_ Ex]. discriminate.
Qed.

Lemma forallb_removelast {A} (f : A -> bool) (l : list A) :
  forallb f l = true -> forallb f (removelast l) = true.
Proof.
  induction l as [|a l IH]; [trivial|].
  intros H. simpl in H. apply andb_true_iff in H as [Ha Hl].
  destruct l as [|b l]; [reflexivity|].
  change (forallb f (removelast (a :: b :: l)))
    with (f a && forallb f (removelast (b :: l))).
  now rewrite Ha, (IH Hl).
Qed.

(** X13.  The directory appended to the import path is the parent of the
    directory that holds the wrapper: for the absolute path of the file,
    given by its components, two [dirname]s remove the last two components
    (and stay at the root when there are fewer).  The entry goes to the end
    of the list, so every entry that was there keeps its place. *)
Theorem sys_path_entry_parent (sys_path : list (list ascii)) (comps : list (list ascii)) :
  forallb is_component comps = true ->
  sys_path_append sys_path (abs_path comps)
  = sys_path ++ [abs_path (removelast (removelast comps))]
  /\ (forall parents d f, comps = parents ++ [d; f] ->
        sys_path_entry (abs_path comps) = abs_path parents)
  /\ (forall i e, sys_path !! i = Some e ->
        sys_path_append sys_path (abs_path comps) !! i = Some e).
Proof.
  intros Hc.
  assert (E : sys_path_entry (abs_path comps) = abs_path (removelast (removelast comps))).
  { unfold sys_path_entry.
    rewrite (dirname_abs_path _ Hc).
    now rewrite (dirname_abs_path _ (forallb_removelast _ _ Hc)). }
  split; [unfold sys_path_append; now rewrite E|].
  split.
  - intros parents d f ->. rewrite E.
    change (parents ++ [d; f]) with (parents ++ [d] ++ [f]).
    rewrite app_assoc, !removelast_last. reflexivity.
  - intros i e Hi. unfold sys_path_append. now apply lookup_app_l_Some.
Qed.

(** ** Beyond the claims: who answers a request *)

Lemma dispatch_snoc (routes : list route) (r : route) (rq : request) :
  dispatch path_matches (routes ++ [r]) rq =
  match dispatch path_matches routes rq with
  | Some x => Some x
  | None =>
      if String.eqb (route_method r) (req_method rq)
         && path_matches (route_path r) (req_path rq)
      then Some r else None
  end.
Proof.
  induction routes as [|x routes IH]; simpl.
  - destruct (String.eqb (route_method r) (req_method rq)
              && path_matches (route_path r) (req_path rq)); reflexivity.
  - destruct (String.eqb (route_method x) (req_method rq)
              && path_matches (route_path x) (req_path rq)); [reflexivity | exact IH].
Qed.

(** X1.  After the registration, a request reaches the health handler
    exactly when no route of the base application serves it, its method is
    GET and its path matches "/health"; it is then answered with the health
    payload and the world stays as it is.  A request that an older route
    serves never reaches the handler. *)
Theorem health_route_reach (w : world) (a : loc) (routes : list route) :
  heap w !! a = Some (Application routes) ->
  exists w1,
    add_health_endpoint (VRef a) w = (Ok tt, w1)
    /\ forall rq,
         dispatch path_matches (routes ++ [health_route]) rq =
           match dispatch path_matches routes rq with
           | Some r => Some r
           | None =>
               if String.eqb "GET" (req_method rq) && path_matches "/health" (req_path rq)
               then Some health_route else None
           end
         /\ (dispatch path_matches routes rq = None ->
             String.eqb "GET" (req_method rq) && path_matches "/health" (req_path rq) = true ->
             serve a rq w1 = (Ok health_status, w1)).
Proof.
  intros Ha. destruct w as [env h es g t]. cbn in Ha.
  exists (World env (<[a := Application (routes ++ [health_route])]> h) es g
                (t ++ [AddRoute a health_route])).
  split; [now apply add_health_endpoint_run|].
  intros rq. split; [apply dispatch_snoc|].
  intros Hnone Hm. unfold serve. cbn [heap].
  rewrite lookup_insert_eq, dispatch_snoc, Hnone.
  cbn [route_method route_path health_route]. rewrite Hm. reflexivity.
Qed.

Lemma dispatch_replicate (routes : list route) (r : route) (n : nat) (rq : request) :
  dispatch path_matches (routes ++ replicate (S n) r) rq
  = dispatch path_matches (routes ++ [r]) rq.
Proof.
  induction n as [|n IH]; [reflexivity|].
  change (replicate (S (S n)) r) with (r :: replicate (S n) r).
  rewrite replicate_cons_app, app_assoc, dispatch_snoc, IH, dispatch_snoc.
  destruct (dispatch path_matches routes rq); [reflexivity|].
  destruct (String.eqb (route_method r) (req_method rq)
            && path_matches (route_path r) (req_path rq)); reflexivity.
Qed.

Lemma register_times (n : nat) : forall (w : world) (a : loc) (routes : list route),
  heap w !! a = Some (Application routes) ->
  exists wn,
    exec (replicate n (add_health_endpoint (VRef a))) w = (Ok tt, wn)
    /\ heap wn !! a = Some (Application (routes ++ replicate n health_route))
    /\ (forall b, b <> a -> heap wn !! b = heap w !! b)
    /\ trace wn = trace w ++ replicate n (AddRoute a health_route).
Proof.
  induction n as [|n IH]; intros w a routes Ha.
  - exists w. cbn. rewrite !app_nil_r. repeat split; assumption.
  - destruct w as [env h es g t]. cbn in Ha.
    cbn [replicate]. erewrite exec_cons_ok by (eapply add_health_endpoint_run; exact Ha).
    edestruct (IH (World env (<[a := Application (routes ++ [health_route])]> h) es g
                         (t ++ [AddRoute a health_route])) a (routes ++ [health_route]))
      as (wn & Hrun & Hheap & Hother & Ht); [cbn; apply lookup_insert_eq|].
    exists wn. split; [exact Hrun|].
    split; [now rewrite Hheap, <- app_assoc|].
    split; [intros b Hb; rewrite (Hother b Hb); cbn; now rewrite lookup_insert_ne by congruence|].
    rewrite Ht. cbn. now rewrite <- app_assoc.
Qed.

(** X2.  Registering the health route again is accepted and appends again:
    after [n] registrations the table ends in [n] health routes.  Routing
    does not change after the first one: every request is served by the same
    route as after a single registration. *)
Theorem register_again (n : nat) (w : world) (a : loc) (routes : list route) :
  heap w !! a = Some (Application routes) ->
  exists wn,
    exec (replicate (S n) (add_health_endpoint (VRef a))) w = (Ok tt, wn)
    /\ heap wn !! a = Some (Application (routes ++ replicate (S n) health_route))
    /\ trace wn = trace w ++ replicate (S n) (AddRoute a health_route)
    /\ forall rq,
         dispatch path_matches (routes ++ replicate (S n) health_route) rq
         = dispatch path_matches (routes ++ [health_route]) rq.
Proof.
  intros Ha.
  destruct (register_times (S n) w a routes Ha) as (wn & Hrun & Hheap & _ & Ht).
  exists wn. split; [exact Hrun|]. split; [exact Hheap|]. split; [exact Ht|].
  intros rq. apply dispatch_replicate.
Qed.

(** X3.  End to end: once the module body has run (imported or as
    [__main__], whatever the port), a GET request for "/health" on the
    application that the module exposes is answered with the health payload
    and changes nothing, provided no route of the base application serves
    that request. *)
Theorem health_after_bootstrap (w : world) (a : loc) (routes : list route) (name : string) :
  loaded w a routes name ->
  BarQueryConstructor_init (load_dotenv (environ w)) = None ->
  dispatch path_matches routes (Request "GET" "/health") = None ->
  path_matches "/health" "/health" = true ->
  let w' := snd (bar_server_wrapper w) in
  globals w' !! "app"%string = Some (VRef a)
  /\ serve a (Request "GET" "/health") w' = (Ok health_status, w').
Proof.
  intros Hw Hc Hnone Hm. cbv zeta.
  destruct (wrapper_final w a routes name Hw Hc) as (Hh & _ & Hg & _).
  split.
  - rewrite Hg by discriminate. unfold configured. cbn. apply lookup_insert_eq.
  - unfold serve. rewrite Hh, (configured_app w a routes name), dispatch_snoc, Hnone.
    cbn. rewrite Hm. reflexivity.
Qed.

(** ** Beyond the claims: failures and what a run leaves behind *)

(** X4.  When the constructor raises, the run ends with that exception and
    the base application is as it was: its route table, the
    query-construction slot and the rest of module [example_server] are
    unchanged, every object that existed still does, the names
    [bar_constructor], [app] and [port] are not bound by the run, and neither
    the port is read nor the server called.  The environment file has been
    loaded by then. *)
Theorem construct_failure (w : world) (a : loc) (routes : list route) (name : string) (code : N) :
  loaded w a routes name ->
  BarQueryConstructor_init (load_dotenv (environ w)) = Some code ->
  exists w' evs,
    bar_server_wrapper w = (Raised (CollaboratorError code), w')
    /\ example_server w' = example_server w
    /\ heap w' !! a = Some (Application routes)
    /\ (forall l o, heap w !! l = Some o -> heap w' !! l = Some o)
    /\ globals w' !! "bar_constructor"%string = globals w !! "bar_constructor"%string
    /\ globals w' !! "app"%string = globals w !! "app"%string
    /\ globals w' !! "port"%string = globals w !! "port"%string
    /\ environ w' = load_dotenv (environ w)
    /\ trace w' = trace w ++ evs
    /\ no_listener evs /\ no_port_read evs
    /\ omap step_of evs = [1%nat].
Proof.
  intros (Happ & Hheap & Hname) Hc.
  assert (Hfresh : forall l o, heap w !! l = Some o -> l <> logger_loc w).
  { intros l o Hl. eapply fresh_logger_loc; eauto. }
  unfold logger_loc in Hfresh.
  destruct w as [env h es g t]. cbn [globals heap environ example_server trace] in *.
  unfold bar_server_wrapper, module_body.
  do 5 run_stmt.
  erewrite exec_cons_raised by (apply construct_raised; eassumption).
  eexists. exists [LoadDotenv; BasicConfig; GetLogger (VStr name); Log Initializing].
  split; [reflexivity|]. cbn.
  split; [reflexivity|].
  split; [rewrite lookup_insert_ne by (intros E; eapply Hfresh; eauto); exact Hheap|].
  split.
  { intros l o Hl. rewrite lookup_insert_ne by (intros E; eapply Hfresh; eauto). exact Hl. }
  split; [now rewrite !lookup_insert_ne by discriminate|].
  split; [now rewrite !lookup_insert_ne by discriminate|].
  split; [now rewrite !lookup_insert_ne by discriminate|].
  split; [reflexivity|].
  split; [now repeat rewrite <- app_assoc|].
  repeat split.
Qed.

(** X5.  When [int] raises on the port setting, the exception comes after
    the configuration: the application that the run leaves behind has the
    health route and the new query constructor, [app] is bound to it, and
    only [port] was never bound. *)
Theorem port_failure_after_configuration (w : world) (a : loc) (routes : list route) (e : exn) :
  loaded w a routes "__main__" ->
  BarQueryConstructor_init (load_dotenv (environ w)) = None ->
  builtin_int (port_setting (load_dotenv (environ w))) = Raised e ->
  exists w',
    bar_server_wrapper w = (Raised e, w')
    /\ heap w' !! a = Some (Application (routes ++ [health_route]))
    /\ query_slot w' = Some (VRef (constructor_loc w))
    /\ heap w' !! constructor_loc w = Some (Instance "BarQueryConstructor")
    /\ globals w' !! "app"%string = Some (VRef a)
    /\ globals w' !! "port"%string = globals w !! "port"%string
    /\ last (trace w') = Some (Getenv "PORT").
Proof.
  intros Hw Hc He.
  rewrite (wrapper_run_main w a routes Hw Hc), He.
  eexists. split; [reflexivity|].
  cbn [set_trace heap globals trace example_server environ].
  split; [apply (configured_app w a routes)|].
  split; [apply (configured_slot w a routes)|].
  split; [destruct Hw as (_ & Ha & _); eapply configured_constructor; eauto|].
  unfold configured. cbn.
  split; [apply lookup_insert_eq|].
  split; [now rewrite !lookup_insert_ne by discriminate|].
  apply last_snoc.
Qed.


(** X8.  The name [app] is bound last: at whatever point of the module
    body, if [app] is bound (and it was not before the run), it names the
    base application, and that application already has the health route and
    the new query constructor behind it. *)
Theorem app_bound_when_configured (w : world) (a : loc) (routes : list route) (name : string) (k : nat) :
  loaded w a routes name ->
  BarQueryConstructor_init (load_dotenv (environ w)) = None ->
  globals w !! "app"%string = None ->
  let wk := snd (exec (firstn k module_body) w) in
  forall v, globals wk !! "app"%string = Some v ->
    v = VRef a
    /\ heap wk !! a = Some (Application (routes ++ [health_route]))
    /\ query_slot wk = Some (VRef (constructor_loc w)).
Proof.
  intros Hw Hc Hfree.
  assert (Hfull : forall n, firstn (12 + n) module_body = module_body).
  { intros n. apply firstn_all2. cbn. lia. }
  do 12 (try destruct k as [|k]); [ .. | change (S (S (S (S (S (S (S (S (S (S (S (S k))))))))))))
                                         with (12 + k)%nat; rewrite Hfull ].
  13: { cbv zeta. fold bar_server_wrapper.
        destruct (wrapper_final w a routes name Hw Hc) as (Hh & Hes & Hg & _).
        intros v Hv. rewrite Hg in Hv by discriminate.
        unfold query_slot. rewrite Hh, Hes.
        unfold configured in *. cbn in *.
        rewrite lookup_insert_eq in Hv. injection Hv as <-.
        rewrite !lookup_insert_eq. repeat split. }
  all: destruct Hw as (Happ & Hheap & Hname);
       pose proof (fresh_logger_loc w a _ Hheap) as Hl0;
       pose proof (fresh_constructor_loc w a _ Hheap) as Hl;
       unfold constructor_loc, logger_loc in *;
       destruct w as [env h es g t];
       cbn [globals heap environ example_server trace] in *;
       unfold module_body; cbn [firstn]; repeat run_stmt;
       cbn; unfold query_slot; cbn; intros v Hv.
  1-11: rewrite ?lookup_insert_ne in Hv by discriminate; congruence.
  rewrite lookup_insert_eq in Hv. injection Hv as <-.
  rewrite !lookup_insert_eq. repeat split.
Qed.

(** ** Beyond the claims: what [int] makes of the port setting *)

Lemma chars_app (s1 s2 : string) : chars (s1 ++ s2)%string = chars s1 ++ chars s2.
Proof. unfold chars. induction s1 as [|c s1 IH]; simpl; [reflexivity | now rewrite IH]. Qed.

Lemma lstrip_app_spaces (pre x : list ascii) :
  forallb is_space pre = true -> lstrip (pre ++ x) = lstrip x.
Proof.
  induction pre as [|c pre IH]; simpl; [reflexivity|].
  intros H. apply andb_true_iff in H as [Hc Hpre]. rewrite Hc. auto.
Qed.

Lemma rstrip_app_spaces (t post : list ascii) :
  forallb is_space post = true -> rstrip (t ++ post) = rstrip t.
Proof.
  intros H. unfold rstrip. rewrite rev_app_distr, lstrip_app_spaces; [reflexivity|].
  now rewrite forallb_rev.
Qed.

Lemma strip_pad (pre s post : list ascii) :
  forallb is_space pre = true -> forallb is_space post = true ->
  strip (pre ++ s ++ post) = strip s.
Proof.
  intros Hpre Hpost. unfold strip. rewrite (lstrip_app_spaces _ _ Hpre).
  destruct (lstrip_split s) as (w & E & Hw).
  rewrite E at 1. rewrite <- app_assoc, (lstrip_app_spaces _ _ Hw).
  destruct (lstrip s) as [|c r] eqn:El.
  - cbn [app]. now rewrite (lstrip_spaces _ Hpost).
  - cbn [app lstrip]. rewrite (lstrip_head s c r El).
    change (c :: r ++ post) with ((c :: r) ++ post).
    now apply rstrip_app_spaces.
Qed.

(** X9.  White space around the port setting does not matter: a value with
    blanks, tabs or line ends before and after it (a trailing newline, say)
    is converted exactly as the value without them, to the same integer or
    to the same [ValueError]. *)
Theorem port_padding (pre s post : string) :
  forallb is_space (chars pre) = true ->
  forallb is_space (chars post) = true ->
  int_of_str max_str_digits (pre ++ s ++ post) = int_of_str max_str_digits s
  /\ builtin_int (VStr (pre ++ s ++ post)) = builtin_int (VStr s).
Proof.
  intros Hpre Hpost.
  assert (E : int_of_str max_str_digits (pre ++ s ++ post) = int_of_str max_str_digits s).
  { unfold int_of_str. rewrite !int_of_chars_spec, !chars_app.
    unfold numeric_chars, numeric_value_chars.
    now rewrite (strip_pad _ _ _ Hpre Hpost). }
  split; [exact E|]. unfold builtin_int. now rewrite E.
Qed.

Lemma forallb_false_witness {A} (f : A -> bool) (l : list A) :
  forallb f l = false -> exists x, In x l /\ f x = false.
Proof.
  induction l as [|a l IH]; simpl; [discriminate|].
  destruct (f a) eqn:Ha; simpl.
  - intros H. destruct (IH H) as (x & Hx & Hf). exists x. auto.
  - intros _. exists a. auto.
Qed.

Lemma forallb_false_in {A} (f : A -> bool) (l : list A) (x : A) :
  In x l -> f x = false -> forallb f l = false.
Proof.
  intros Hx Hf. destruct (forallb f l) eqn:E; [|reflexivity].
  rewrite forallb_forall in E. rewrite (E x Hx) in Hf. discriminate.
Qed.

Lemma in_lstrip (c : ascii) (s : list ascii) :
  In c s -> is_space c = false -> In c (lstrip s).
Proof.
  intros Hin Hc. induction s as [|a s IH]; simpl in *; [contradiction|].
  destruct (is_space a) eqn:Ha; [|exact Hin].
  destruct Hin as [->|Hin]; [congruence | auto].
Qed.

Lemma in_strip (c : ascii) (s : list ascii) :
  In c s -> is_space c = false -> In c (strip s).
Proof.
  intros Hin Hc. unfold strip, rstrip.
  apply in_rev. rewrite rev_involutive.
  apply in_lstrip; [|exact Hc]. apply -> in_rev. now apply in_lstrip.
Qed.

Lemma in_unsigned_part (c : ascii) (t : list ascii) :
  In c t -> is_plus c = false -> is_minus c = false -> In c (unsigned_part t).
Proof.
  intros Hin Hp Hm. unfold unsigned_part, has_sign.
  destruct t as [|a t]; [contradiction|].
  destruct (is_plus a || is_minus a) eqn:Ha; [|exact Hin].
  destruct Hin as [->|Hin]; [|exact Hin].
  rewrite Hp, Hm in Ha. discriminate.
Qed.

Lemma not_literal_not_numeric max (s : list ascii) :
  forallb literal_char s = false -> numeric_chars max s = false.
Proof.
  intros H. destruct (forallb_false_witness _ _ H) as (c & Hin & Hc).
  unfold literal_char in Hc.
  apply orb_false_iff in Hc as [Hc Hminus].
  apply orb_false_iff in Hc as [Hc Hplus].
  apply orb_false_iff in Hc as [Hc Hspace].
  apply orb_false_iff in Hc as [Hdigit Hus].
  unfold numeric_chars, well_grouped.
  rewrite (forallb_false_in digit_or_underscore _ c).
  - reflexivity.
  - apply in_unsigned_part; [now apply in_strip | assumption | assumption].
  - unfold digit_or_underscore. now rewrite Hdigit, Hus.
Qed.

(** X10.  A port setting with any character other than a decimal digit, an
    underscore, a sign or white space (a letter, a dot, a slash, a colon,
    ...) is refused: [int] raises [ValueError], the run as [__main__] ends
    with it right after reading the variable, and the server is not
    called. *)
Theorem port_bad_character (w : world) (a : loc) (routes : list route) (s : string) :
  loaded w a routes "__main__" ->
  BarQueryConstructor_init (load_dotenv (environ w)) = None ->
  load_dotenv (environ w) !! "PORT"%string = Some s ->
  forallb literal_char (chars s) = false ->
  builtin_int (VStr s) = Raised ValueError
  /\ exists w' evs,
       bar_server_wrapper w = (Raised ValueError, w')
       /\ trace w' = trace w ++ evs
       /\ last evs = Some (Getenv "PORT")
       /\ no_listener evs.
Proof.
  intros Hw Hc Hp Hbad.
  assert (E : builtin_int (VStr s) = Raised ValueError).
  { apply builtin_int_not_numeric. now apply not_literal_not_numeric. }
  split; [exact E|].
  eexists. exists (configure_events w a "__main__" ++ [Getenv "PORT"]).
  rewrite (wrapper_run_main w a routes Hw Hc), (port_setting_set _ _ Hp), E.
  split; [reflexivity|]. cbn. split; [now rewrite <- app_assoc|].
  split; reflexivity.
Qed.

Lemma step_digit_nonneg (ds : list ascii) : forall acc, 0 <= acc -> 0 <= fold_left step_digit ds acc.
Proof.
  induction ds as [|c ds IH]; simpl; intros acc Hacc; [exact Hacc|].
  apply IH. unfold step_digit, digit_value. lia.
Qed.

(** X11.  A port setting made of decimal digits only (within the
    conversion limit) resolves to the number the digits spell, leading
    zeros included; it is not negative, and it is handed to the server as it
    is, with no check against the range of ports. *)
Theorem port_digit_string (w : world) (a : loc) (routes : list route) (s : string) :
  loaded w a routes "__main__" ->
  BarQueryConstructor_init (load_dotenv (environ w)) = None ->
  load_dotenv (environ w) !! "PORT"%string = Some s ->
  digit_string s = true ->
  exceeds_limit max_str_digits (length (chars s)) = false ->
  0 <= decimal (chars s)
  /\ exists w',
       bar_server_wrapper w = (Ok tt, w')
       /\ globals w' !! "port"%string = Some (VInt (decimal (chars s)))
       /\ last (trace w') = Some (UvicornRun (VRef a) "0.0.0.0" (VInt (decimal (chars s)))).
Proof.
  intros Hw Hc Hp Hd Hlim.
  split; [apply step_digit_nonneg; lia|].
  destruct (digit_string_numeric max_str_digits s Hd Hlim) as [Hnum Hval].
  rewrite (wrapper_run_main w a routes Hw Hc), (port_setting_set _ _ Hp),
    (builtin_int_numeric _ Hnum), Hval.
  eexists. split; [reflexivity|]. cbn.
  split; [apply lookup_insert_eq | apply main_events_last].
Qed.

Lemma signed_digits_numeric max (sign : ascii) (ds : list ascii) :
  is_plus sign || is_minus sign = true ->
  ds <> [] -> forallb is_digit ds = true ->
  exceeds_limit max (length ds) = false ->
  numeric_chars max (sign :: ds) = true
  /\ numeric_value_chars (sign :: ds) = if is_minus sign then - decimal ds else decimal ds.
Proof.
  intros Hs Hne Hd Hlim.
  assert (Hsp : is_space sign = false).
  { apply orb_true_iff in Hs as [Hs|Hs];
      [now apply plus_not_space | now apply minus_not_space]. }
  assert (Estrip : strip (sign :: ds) = sign :: ds).
  { unfold strip, rstrip. cbn [lstrip]. rewrite Hsp.
    assert (El : lstrip (rev (sign :: ds)) = rev (sign :: ds)).
    { simpl rev. destruct (rev ds) as [|x r] eqn:Er.
      - apply (f_equal (@rev ascii)) in Er. rewrite rev_involutive in Er. contradiction.
      - assert (Hx : is_digit x = true).
        { rewrite <- forallb_rev, Er in Hd. cbn [forallb] in Hd.
          now apply andb_true_iff in Hd as [Hx _]. }
        cbn [app lstrip]. now rewrite (digit_not_space _ Hx). }
    rewrite El. apply rev_involutive. }
  unfold numeric_chars, numeric_value_chars. rewrite Estrip.
  unfold unsigned_part, has_sign, has_minus. rewrite Hs. simpl tail.
  rewrite (digits_of_digits _ Hd), Hlim.
  destruct ds as [|d ds]; [contradiction|].
  rewrite (well_grouped_digits _ _ Hd). split; reflexivity.
Qed.

(** X12.  A sign in front of the digits is accepted: with a minus sign the
    port is the negated number, so a negative port is handed to the server
    unchecked; a plus sign changes nothing. *)
Theorem port_signed (w : world) (a : loc) (routes : list route) (sign : ascii) (d : string) :
  loaded w a routes "__main__" ->
  BarQueryConstructor_init (load_dotenv (environ w)) = None ->
  load_dotenv (environ w) !! "PORT"%string = Some (String sign d) ->
  is_plus sign || is_minus sign = true ->
  digit_string d = true ->
  exceeds_limit max_str_digits (length (chars d)) = false ->
  let p := if is_minus sign then - decimal (chars d) else decimal (chars d) in
  (is_minus sign = true -> p <= 0)
  /\ exists w',
       bar_server_wrapper w = (Ok tt, w')
       /\ globals w' !! "port"%string = Some (VInt p)
       /\ last (trace w') = Some (UvicornRun (VRef a) "0.0.0.0" (VInt p)).
Proof.
  intros Hw Hc Hp Hs Hd Hlim. cbv zeta.
  assert (Hpos : 0 <= decimal (chars d)) by (apply step_digit_nonneg; lia).
  split; [intros ->; lia|].
  assert (Hds : chars d <> [] /\ forallb is_digit (chars d) = true).
  { unfold digit_string in Hd. destruct (chars d); [discriminate|]. split; [discriminate | exact Hd]. }
  destruct Hds as [Hne Hall].
  destruct (signed_digits_numeric max_str_digits sign (chars d) Hs Hne Hall Hlim) as [Hnum Hval].
  assert (E : builtin_int (VStr (String sign d))
              = Ok (VInt (if is_minus sign then - decimal (chars d) else decimal (chars d)))).
  { rewrite <- Hval. now apply builtin_int_numeric. }
  rewrite (wrapper_run_main w a routes Hw Hc), (port_setting_set _ _ Hp), E.
  eexists. split; [reflexivity|]. cbn.
  split; [apply lookup_insert_eq | apply main_events_last].
Qed.

End Wrapper.

(** ** The theorems at the sample deployment *)

Lemma health_handler_constant_witness :
  heap (sample_world ∅ "__main__") !! 1%positive = Some (Application sample_routes)
  /\ exists w1 r,
       add_health_endpoint (VRef 1%positive) (sample_world ∅ "__main__") = (Ok tt, w1)
       /\ heap w1 !! 1%positive = Some (Application (sample_routes ++ [r]))
       /\ route_method r = "GET"%string /\ route_path r = "/health"%string
       /\ forall (history : list request) (rq : request) (w2 : world),
            let w3 := serve_all String.eqb sample_handler 1%positive history w2 in
            call_endpoint sample_handler (route_endpoint r) rq w3 = (Ok health_status, w3).
Proof.
  split; [reflexivity|].
  apply (health_handler_constant String.eqb sample_handler
           (sample_world ∅ "__main__") 1%positive sample_routes).
  reflexivity.
Defined.

Lemma add_health_endpoint_frame_witness :
  heap (sample_world ∅ "__main__") !! 1%positive = Some (Application sample_routes)
  /\ exists w1,
       add_health_endpoint (VRef 1%positive) (sample_world ∅ "__main__") = (Ok tt, w1)
       /\ heap w1 !! 1%positive = Some (Application (sample_routes ++ [health_route]))
       /\ dispatch String.eqb (sample_routes ++ [health_route]) (Request "POST" "/memory")
          = Some (Route "POST" "/memory" (external 1))
       /\ fst (serve String.eqb sample_handler 1%positive (Request "POST" "/memory") w1)
          = fst (serve String.eqb sample_handler 1%positive (Request "POST" "/memory")
                   (sample_world ∅ "__main__")).
Proof.
  split; [reflexivity|].
  destruct (add_health_endpoint_frame String.eqb sample_handler
              (sample_world ∅ "__main__") 1%positive sample_routes eq_refl)
    as (w1 & Hrun & Happ & _ & Hd & _).
  exists w1. split; [exact Hrun|]. split; [exact Happ|].
  destruct (Hd (Request "POST" "/memory") (Route "POST" "/memory" (external 1)) eq_refl)
    as (Hdis & _ & _ & Hresp).
  split; [exact Hdis|].
  apply Hresp. intros u1 u2 _. reflexivity.
Defined.

(** A handler that reports the number of routes answers differently once
    the health route is registered. *)
Lemma add_health_endpoint_response_counterexample :
  heap (sample_world ∅ "__main__") !! 1%positive = Some (Application sample_routes)
  /\ dispatch String.eqb sample_routes (Request "GET" "/")
     = Some (Route "GET" "/" (external 0))
  /\ fst (serve String.eqb (route_count_handler 1%positive) 1%positive (Request "GET" "/")
            (sample_world ∅ "__main__")) = Ok (VInt 2)
  /\ fst (serve String.eqb (route_count_handler 1%positive) 1%positive (Request "GET" "/")
            (snd (add_health_endpoint (VRef 1%positive) (sample_world ∅ "__main__"))))
     = Ok (VInt 3)
  /\ fst (serve String.eqb (route_count_handler 1%positive) 1%positive (Request "GET" "/")
            (snd (add_health_endpoint (VRef 1%positive) (sample_world ∅ "__main__"))))
     <> fst (serve String.eqb (route_count_handler 1%positive) 1%positive (Request "GET" "/")
               (sample_world ∅ "__main__")).
Proof.
  split; [reflexivity|]. split; [reflexivity|]. split; [reflexivity|].
  split; [reflexivity | discriminate].
Qed.

Lemma port_default_witness :
  loaded (sample_world ∅ "__main__") 1%positive sample_routes "__main__"
  /\ sample_init (sample_dotenv (environ (sample_world ∅ "__main__"))) = None
  /\ sample_dotenv (environ (sample_world ∅ "__main__")) !! "PORT"%string = None
  /\ exists w',
       bar_server_wrapper 4300 sample_dotenv sample_init (sample_world ∅ "__main__") = (Ok tt, w')
       /\ globals w' !! "port"%string = Some (VInt 8001)
       /\ last (trace w') = Some (UvicornRun (VRef 1%positive) "0.0.0.0" (VInt 8001)).
Proof.
  split; [repeat split|]. split; [reflexivity|]. split; [reflexivity|].
  apply (port_default 4300 sample_dotenv sample_init
           (sample_world ∅ "__main__") 1%positive sample_routes);
    [repeat split | reflexivity | reflexivity].
Defined.

Lemma port_not_numeric_witness :
  loaded (sample_world {["PORT"%string := "abc"%string]} "__main__") 1%positive sample_routes "__main__"
  /\ sample_dotenv (environ (sample_world {["PORT"%string := "abc"%string]} "__main__")) !! "PORT"%string
     = Some "abc"%string
  /\ numeric_string 4300 "abc" = false
  /\ exists e w' evs,
       bar_server_wrapper 4300 sample_dotenv sample_init
         (sample_world {["PORT"%string := "abc"%string]} "__main__") = (Raised e, w')
       /\ trace w' = trace (sample_world {["PORT"%string := "abc"%string]} "__main__") ++ evs
       /\ no_listener evs.
Proof.
  split; [repeat split|]. split; [reflexivity|]. split; [reflexivity|].
  destruct (port_not_numeric 4300 sample_dotenv sample_init
              (sample_world {["PORT"%string := "abc"%string]} "__main__")
              1%positive sample_routes "abc")
    as (e & w' & evs & Hrun & Ht & Hn & _); [repeat split | reflexivity | reflexivity |].
  exists e, w', evs. repeat split; assumption.
Defined.

Lemma port_empty_string_witness :
  loaded (sample_world {["PORT"%string := ""%string]} "__main__") 1%positive sample_routes "__main__"
  /\ sample_init (sample_dotenv (environ (sample_world {["PORT"%string := ""%string]} "__main__"))) = None
  /\ sample_dotenv (environ (sample_world {["PORT"%string := ""%string]} "__main__")) !! "PORT"%string
     = Some ""%string
  /\ exists w' evs,
       bar_server_wrapper 4300 sample_dotenv sample_init
         (sample_world {["PORT"%string := ""%string]} "__main__") = (Raised ValueError, w')
       /\ trace w' = trace (sample_world {["PORT"%string := ""%string]} "__main__") ++ evs
       /\ last evs = Some (Getenv "PORT")
       /\ no_listener evs.
Proof.
  split; [repeat split|]. split; [reflexivity|]. split; [reflexivity|].
  apply (port_empty_string 4300 sample_dotenv sample_init
           (sample_world {["PORT"%string := ""%string]} "__main__") 1%positive sample_routes);
    [repeat split | reflexivity | reflexivity].
Defined.



Lemma startup_order_witness :
  loaded (sample_world ∅ "__main__") 1%positive sample_routes "__main__"
  /\ sample_init (sample_dotenv (environ (sample_world ∅ "__main__"))) = None
  /\ port_resolves 4300 (sample_dotenv (environ (sample_world ∅ "__main__"))) 8001
  /\ exists w' evs,
       bar_server_wrapper 4300 sample_dotenv sample_init (sample_world ∅ "__main__") = (Ok tt, w')
       /\ trace w' = trace (sample_world ∅ "__main__") ++ evs
       /\ omap step_of evs = [1; 2; 3; 4; 5; 6]%nat
       /\ last evs = Some (UvicornRun (VRef 1%positive) "0.0.0.0" (VInt 8001))
       /\ globals w' !! "port"%string = Some (VInt 8001)
       /\ query_slot w' = Some (VRef (constructor_loc (sample_world ∅ "__main__"))).
Proof.
  split; [repeat split|]. split; [reflexivity|]. split; [reflexivity|].
  destruct (startup_order 4300 sample_dotenv sample_init
              (sample_world ∅ "__main__") 1%positive sample_routes) as [Hrun _];
    [repeat split|].
  destruct (Hrun 8001)
    as (w' & evs & Hr & Ht & _ & Hsteps & Hlast & _ & _ & _ & _ & _ & Hport & _ & _ & Hslot & _);
    [reflexivity | reflexivity |].
  exists w', evs. repeat split; assumption.
Defined.

Lemma entry_point_guard_witness :
  loaded (sample_world ∅ "bar_server_wrapper") 1%positive sample_routes "bar_server_wrapper"
  /\ sample_init (sample_dotenv (environ (sample_world ∅ "bar_server_wrapper"))) = None
  /\ "bar_server_wrapper"%string <> "__main__"%string
  /\ exists w' evs,
       bar_server_wrapper 4300 sample_dotenv sample_init (sample_world ∅ "bar_server_wrapper")
       = (Ok tt, w')
       /\ trace w' = trace (sample_world ∅ "bar_server_wrapper") ++ evs
       /\ no_listener evs /\ no_port_read evs
       /\ globals w' !! "app"%string = Some (VRef 1%positive)
       /\ heap w' !! 1%positive = Some (Application (sample_routes ++ [health_route])).
Proof.
  split; [repeat split|]. split; [reflexivity|]. split; [discriminate|].
  destruct (entry_point_guard 4300 sample_dotenv sample_init
              (sample_world ∅ "bar_server_wrapper") 1%positive sample_routes
              "bar_server_wrapper") as [_ Hlib]; [repeat split | reflexivity |].
  destruct Hlib as (w' & evs & Hrun & Ht & Hl & Hp & _ & Happ & Hheap & _); [discriminate|].
  exists w', evs. repeat split; assumption.
Defined.

Lemma query_constructor_installed_witness :
  loaded (sample_world ∅ "__main__") 1%positive sample_routes "__main__"
  /\ sample_init (sample_dotenv (environ (sample_world ∅ "__main__"))) = None
  /\ query_slot (sample_world ∅ "__main__") = Some (VRef 2%positive)
  /\ constructor_loc (sample_world ∅ "__main__") = 4%positive
  /\ query_slot (snd (bar_server_wrapper 4300 sample_dotenv sample_init (sample_world ∅ "__main__")))
     = Some (VRef (constructor_loc (sample_world ∅ "__main__"))).
Proof.
  split; [repeat split|]. split; [reflexivity|]. split; [reflexivity|]. split; [reflexivity|].
  destruct (query_constructor_installed 4300 sample_dotenv sample_init
              (sample_world ∅ "__main__") 1%positive sample_routes "__main__")
    as (_ & _ & _ & Hslot & _); [repeat split | reflexivity |].
  exact Hslot.
Defined.

Lemma app_is_base_app_witness :
  loaded (sample_world ∅ "bar_server_wrapper") 1%positive sample_routes "bar_server_wrapper"
  /\ sample_init (sample_dotenv (environ (sample_world ∅ "bar_server_wrapper"))) = None
  /\ globals (snd (bar_server_wrapper 4300 sample_dotenv sample_init
                     (sample_world ∅ "bar_server_wrapper"))) !! "app"%string
     = Some (VRef 1%positive)
  /\ example_server (snd (bar_server_wrapper 4300 sample_dotenv sample_init
                            (sample_world ∅ "bar_server_wrapper"))) !! "app"%string
     = Some (VRef 1%positive).
Proof.
  split; [repeat split|]. split; [reflexivity|].
  destruct (app_is_base_app 4300 sample_dotenv sample_init
              (sample_world ∅ "bar_server_wrapper") 1%positive sample_routes
              "bar_server_wrapper") as (Hg & _ & He & _); [repeat split | reflexivity |].
  split; assumption.
Defined.

(** ** The further theorems at the sample deployment *)

Lemma sys_path_entry_parent_witness :
  forallb is_component sample_file = true
  /\ sys_path_append sample_sys_path (abs_path sample_file)
     = [ chars "/usr/local/lib/python3.11"; chars "/app" ].
Proof.
  split; [reflexivity|].
  destruct (sys_path_entry_parent sample_sys_path sample_file eq_refl) as [H _].
  exact H.
Defined.

Lemma health_route_reach_witness :
  heap (sample_world ∅ "__main__") !! 1%positive = Some (Application sample_routes)
  /\ exists w1,
       add_health_endpoint (VRef 1%positive) (sample_world ∅ "__main__") = (Ok tt, w1)
       /\ serve String.eqb sample_handler 1%positive (Request "GET" "/health") w1
          = (Ok health_status, w1).
Proof.
  split; [reflexivity|].
  destruct (health_route_reach String.eqb sample_handler
              (sample_world ∅ "__main__") 1%positive sample_routes eq_refl)
    as (w1 & Hrun & Hall).
  exists w1. split; [exact Hrun|].
  destruct (Hall (Request "GET" "/health")) as [_ Hserve].
  apply Hserve; reflexivity.
Defined.

Lemma register_again_witness :
  heap (sample_world ∅ "__main__") !! 1%positive = Some (Application sample_routes)
  /\ exists w2,
       exec [add_health_endpoint (VRef 1%positive); add_health_endpoint (VRef 1%positive)]
            (sample_world ∅ "__main__") = (Ok tt, w2)
       /\ heap w2 !! 1%positive
          = Some (Application (sample_routes ++ [health_route; health_route]))
       /\ dispatch String.eqb (sample_routes ++ [health_route; health_route])
            (Request "GET" "/health")
          = dispatch String.eqb (sample_routes ++ [health_route]) (Request "GET" "/health").
Proof.
  split; [reflexivity|].
  destruct (register_again String.eqb 1 (sample_world ∅ "__main__") 1%positive
              sample_routes eq_refl) as (w2 & Hrun & Hheap & _ & Hd).
  exists w2. split; [exact Hrun|]. split; [exact Hheap|].
  apply (Hd (Request "GET" "/health")).
Defined.

Lemma health_after_bootstrap_witness :
  loaded (sample_world ∅ "bar_server_wrapper") 1%positive sample_routes "bar_server_wrapper"
  /\ sample_init (sample_dotenv (environ (sample_world ∅ "bar_server_wrapper"))) = None
  /\ dispatch String.eqb sample_routes (Request "GET" "/health") = None
  /\ String.eqb "/health" "/health" = true
  /\ serve String.eqb sample_handler 1%positive (Request "GET" "/health")
       (snd (bar_server_wrapper 4300 sample_dotenv sample_init
               (sample_world ∅ "bar_server_wrapper")))
     = (Ok health_status,
        snd (bar_server_wrapper 4300 sample_dotenv sample_init
               (sample_world ∅ "bar_server_wrapper"))).
Proof.
  split; [repeat split|]. split; [reflexivity|]. split; [reflexivity|]. split; [reflexivity|].
  destruct (health_after_bootstrap 4300 sample_dotenv sample_init String.eqb sample_handler
              (sample_world ∅ "bar_server_wrapper") 1%positive sample_routes
              "bar_server_wrapper") as [_ H];
    [repeat split | reflexivity | reflexivity | reflexivity | exact H].
Defined.

Lemma construct_failure_witness :
  loaded (sample_world ∅ "__main__") 1%positive sample_routes "__main__"
  /\ sample_init (no_dotenv (environ (sample_world ∅ "__main__"))) = Some 1%N
  /\ exists w',
       bar_server_wrapper 4300 no_dotenv sample_init (sample_world ∅ "__main__")
       = (Raised (CollaboratorError 1), w')
       /\ example_server w' = example_server (sample_world ∅ "__main__")
       /\ heap w' !! 1%positive = Some (Application sample_routes).
Proof.
  split; [repeat split|]. split; [reflexivity|].
  destruct (construct_failure 4300 no_dotenv sample_init
              (sample_world ∅ "__main__") 1%positive sample_routes "__main__" 1%N)
    as (w' & evs & Hrun & Hes & Hheap & _); [repeat split | reflexivity |].
  exists w'. repeat split; assumption.
Defined.

Lemma port_failure_after_configuration_witness :
  loaded (sample_world {["PORT"%string := "abc"%string]} "__main__") 1%positive sample_routes "__main__"
  /\ sample_init (sample_dotenv (environ (sample_world {["PORT"%string := "abc"%string]} "__main__"))) = None
  /\ builtin_int 4300
       (port_setting (sample_dotenv (environ (sample_world {["PORT"%string := "abc"%string]} "__main__"))))
     = Raised ValueError
  /\ exists w',
       bar_server_wrapper 4300 sample_dotenv sample_init
         (sample_world {["PORT"%string := "abc"%string]} "__main__") = (Raised ValueError, w')
       /\ heap w' !! 1%positive = Some (Application (sample_routes ++ [health_route]))
       /\ globals w' !! "app"%string = Some (VRef 1%positive).
Proof.
  split; [repeat split|]. split; [reflexivity|]. split; [reflexivity|].
  destruct (port_failure_after_configuration 4300 sample_dotenv sample_init
              (sample_world {["PORT"%string := "abc"%string]} "__main__")
              1%positive sample_routes ValueError)
    as (w' & Hrun & Hheap & _ & _ & Happ & _); [repeat split | reflexivity | reflexivity |].
  exists w'. repeat split; assumption.
Defined.


Lemma app_bound_when_configured_witness :
  loaded (sample_world ∅ "bar_server_wrapper") 1%positive sample_routes "bar_server_wrapper"
  /\ sample_init (sample_dotenv (environ (sample_world ∅ "bar_server_wrapper"))) = None
  /\ globals (sample_world ∅ "bar_server_wrapper") !! "app"%string = None
  /\ globals (snd (exec (firstn 11 (module_body 4300 sample_dotenv sample_init))
                        (sample_world ∅ "bar_server_wrapper"))) !! "app"%string
     = Some (VRef 1%positive)
  /\ heap (snd (exec (firstn 11 (module_body 4300 sample_dotenv sample_init))
                     (sample_world ∅ "bar_server_wrapper"))) !! 1%positive
     = Some (Application (sample_routes ++ [health_route])).
Proof.
  split; [repeat split|]. split; [reflexivity|]. split; [reflexivity|]. split; [reflexivity|].
  destruct (app_bound_when_configured 4300 sample_dotenv sample_init
              (sample_world ∅ "bar_server_wrapper") 1%positive sample_routes
              "bar_server_wrapper" 11) with (v := VRef 1%positive)
    as (_ & Hheap & _); [repeat split | reflexivity | reflexivity | reflexivity | exact Hheap].
Defined.

Lemma port_padding_witness :
  forallb is_space (chars " ") = true
  /\ forallb is_space (chars newline) = true
  /\ builtin_int 4300 (VStr (" " ++ "8080" ++ newline)) = builtin_int 4300 (VStr "8080").
Proof.
  split; [reflexivity|]. split; [reflexivity|].
  destruct (port_padding 4300 " " "8080" newline) as [_ H]; [reflexivity | reflexivity | exact H].
Defined.

Lemma port_bad_character_witness :
  loaded (sample_world {["PORT"%string := "8080/tcp"%string]} "__main__") 1%positive sample_routes "__main__"
  /\ sample_init (sample_dotenv (environ (sample_world {["PORT"%string := "8080/tcp"%string]} "__main__"))) = None
  /\ sample_dotenv (environ (sample_world {["PORT"%string := "8080/tcp"%string]} "__main__")) !! "PORT"%string
     = Some "8080/tcp"%string
  /\ forallb literal_char (chars "8080/tcp") = false
  /\ builtin_int 4300 (VStr "8080/tcp") = Raised ValueError.
Proof.
  split; [repeat split|]. split; [reflexivity|]. split; [reflexivity|]. split; [reflexivity|].
  destruct (port_bad_character 4300 sample_dotenv sample_init
              (sample_world {["PORT"%string := "8080/tcp"%string]} "__main__")
              1%positive sample_routes "8080/tcp") as [H _];
    [repeat split | reflexivity | reflexivity | reflexivity | exact H].
Defined.

Lemma port_digit_string_witness :
  loaded (sample_world {["PORT"%string := "0080"%string]} "__main__") 1%positive sample_routes "__main__"
  /\ sample_init (sample_dotenv (environ (sample_world {["PORT"%string := "0080"%string]} "__main__"))) = None
  /\ sample_dotenv (environ (sample_world {["PORT"%string := "0080"%string]} "__main__")) !! "PORT"%string
     = Some "0080"%string
  /\ digit_string "0080" = true
  /\ exceeds_limit 4300 (length (chars "0080")) = false
  /\ exists w',
       bar_server_wrapper 4300 sample_dotenv sample_init
         (sample_world {["PORT"%string := "0080"%string]} "__main__") = (Ok tt, w')
       /\ globals w' !! "port"%string = Some (VInt 80).
Proof.
  split; [repeat split|]. split; [reflexivity|]. split; [reflexivity|].
  split; [reflexivity|]. split; [reflexivity|].
  destruct (port_digit_string 4300 sample_dotenv sample_init
              (sample_world {["PORT"%string := "0080"%string]} "__main__")
              1%positive sample_routes "0080") as (_ & w' & Hrun & Hport & _);
    [repeat split | reflexivity | reflexivity | reflexivity | reflexivity |].
  exists w'. split; [exact Hrun | exact Hport].
Defined.

Lemma port_signed_witness :
  loaded (sample_world {["PORT"%string := "-1"%string]} "__main__") 1%positive sample_routes "__main__"
  /\ sample_init (sample_dotenv (environ (sample_world {["PORT"%string := "-1"%string]} "__main__"))) = None
  /\ sample_dotenv (environ (sample_world {["PORT"%string := "-1"%string]} "__main__")) !! "PORT"%string
     = Some "-1"%string
  /\ is_plus "-" || is_minus "-" = true
  /\ digit_string "1" = true
  /\ exceeds_limit 4300 (length (chars "1")) = false
  /\ exists w',
       bar_server_wrapper 4300 sample_dotenv sample_init
         (sample_world {["PORT"%string := "-1"%string]} "__main__") = (Ok tt, w')
       /\ last (trace w') = Some (UvicornRun (VRef 1%positive) "0.0.0.0" (VInt (-1))).
Proof.
  split; [repeat split|]. split; [reflexivity|]. split; [reflexivity|].
  split; [reflexivity|]. split; [reflexivity|]. split; [reflexivity|].
  destruct (port_signed 4300 sample_dotenv sample_init
              (sample_world {["PORT"%string := "-1"%string]} "__main__")
              1%positive sample_routes "-"%char "1") as (_ & w' & Hrun & _ & Hlast);
    [repeat split | reflexivity | reflexivity | reflexivity | reflexivity | reflexivity |].
  exists w'. split; [exact Hrun | exact Hlast].
Defined.
